(** * A shallow embedding of the ZNB vector-network-analyser driver

    Source: [public_code_examples/drivers/znb.py], class [VNA].

    The driver is sequential, blocking code over a VISA session.  It is
    embedded as a state-and-exception monad over

    - the session object ([self.connection]), an arbitrary transport given by
      the class [Visa];
    - the list of transport calls made so far ([history]), kept so that
      statements about which commands reached the instrument can be made;
    - the records handed to the module logger ([records]).

    Python [str] values are [string]s (code points 0..255); NumPy is an
    interface, the class [NumPy], over an arbitrary type of floats. *)

From Stdlib Require Import String Ascii List ZArith Bool Arith Lia.
From Stdlib Require Import DecimalString.
Import ListNotations.

Local Open Scope string_scope.
Local Open Scope list_scope.

(** ** Python values *)

(** The exceptions the driver and the library calls it makes can raise.
    [RecursionError] is a subclass of [RuntimeError] in Python; it is kept
    apart because its message is not one the driver writes. *)
Inductive exn : Type :=
| RuntimeError (msg : string)
| RecursionError
| ValueError (msg : string)
| ValidationError
| VisaIOError (code : Z).

Inductive result (A : Type) : Type :=
| Ok (a : A)
| Raise (e : exn).
Arguments Ok {A} a.
Arguments Raise {A} e.

(** The double-quote character, used in the trace-selection command. *)
Definition dquote : string := String (ascii_of_nat 34) EmptyString.

(** *** [str.lower]

    On code points below 256 [str.lower] moves [A]..[Z] and the Latin-1
    capitals U+00C0..U+00DE (other than the multiplication sign U+00D7) up
    by 32 and leaves every other character alone. *)
Definition lower_char (c : ascii) : ascii :=
  let n := nat_of_ascii c in
  if (((65 <=? n) && (n <=? 90))
      || ((192 <=? n) && (n <=? 222) && negb (n =? 215)))%nat
  then ascii_of_nat (n + 32)
  else c.

Fixpoint lower (s : string) : string :=
  match s with
  | EmptyString => EmptyString
  | String c s' => String (lower_char c) (lower s')
  end.

(** *** [str.strip] and [int(str)]

    [str.strip] removes the characters of [str.isspace] at both ends:
    below 256 these are U+0009..U+000D, U+001C..U+0020, U+0085 and
    U+00A0.

    [int] skips white space at both ends, accepts one sign, and then
    decimal digits in which single underscores may separate digits.  Its
    white space is narrower than that of [str.strip]: the blank and
    U+0009..U+000D, and U+0085 and U+00A0, which [int] turns into blanks
    before it parses; the separators U+001C..U+001F are not skipped, so a
    literal padded with one of them is refused.  Since Python 3.11 a
    literal of more than 4300 digits is refused.  [None] is the
    [ValueError] case. *)
Definition is_space (c : ascii) : bool :=
  let n := nat_of_ascii c in
  (((9 <=? n) && (n <=? 13)) || ((28 <=? n) && (n <=? 32))
   || (n =? 133) || (n =? 160))%nat.

Definition digit_of (c : ascii) : option Z :=
  let n := nat_of_ascii c in
  if ((48 <=? n) && (n <=? 57))%nat then Some (Z.of_nat (n - 48)) else None.

Fixpoint lstrip (s : string) : string :=
  match s with
  | String c s' => if is_space c then lstrip s' else s
  | EmptyString => EmptyString
  end.

Fixpoint rstrip (s : string) : string :=
  match s with
  | EmptyString => EmptyString
  | String c s' =>
      match rstrip s' with
      | EmptyString => if is_space c then EmptyString else String c EmptyString
      | t => String c t
      end
  end.

Definition strip (s : string) : string := rstrip (lstrip s).

(** [digits acc count after_digit s]: the value of the digit string [s]
    read after [acc], with [count] digits seen so far; [after_digit] tells
    whether the previous character was a digit, which is where an
    underscore may stand. *)
Fixpoint digits (acc : Z) (count : Z) (after_digit : bool) (s : string)
  : option Z :=
  match s with
  | EmptyString =>
      if after_digit && (count <=? 4300)%Z then Some acc else None
  | String c s' =>
      match digit_of c with
      | Some d => digits (10 * acc + d) (count + 1) true s'
      | None =>
          if (nat_of_ascii c =? 95)%nat && after_digit
          then digits acc count false s'
          else None
      end
  end.

Definition is_int_space (c : ascii) : bool :=
  let n := nat_of_ascii c in
  (((9 <=? n) && (n <=? 13)) || (n =? 32) || (n =? 133) || (n =? 160))%nat.

Fixpoint int_lstrip (s : string) : string :=
  match s with
  | String c s' => if is_int_space c then int_lstrip s' else s
  | EmptyString => EmptyString
  end.

Fixpoint int_rstrip (s : string) : string :=
  match s with
  | EmptyString => EmptyString
  | String c s' =>
      match int_rstrip s' with
      | EmptyString =>
          if is_int_space c then EmptyString else String c EmptyString
      | t => String c t
      end
  end.

Definition py_int (s : string) : option Z :=
  match int_rstrip (int_lstrip s) with
  | String "+" s' => digits 0 0 false s'
  | String "-" s' => option_map Z.opp (digits 0 0 false s')
  | s' => digits 0 0 false s'
  end.

(** The text [int] puts in its [ValueError]; [repr] is rendered without
    escapes. *)
Definition int_error (s : string) : string :=
  "invalid literal for int() with base 10: '" ++ s ++ "'".

(** ** The session, the logger and the monad *)

(** A call made on [self.connection]. *)
Inductive io_event : Type :=
| Wrote (cmd : string)
| Queried (cmd : string).

Definition io_event_eqb (a b : io_event) : bool :=
  match a, b with
  | Wrote x, Wrote y => String.eqb x y
  | Queried x, Queried y => String.eqb x y
  | _, _ => false
  end.

Inductive level : Type := DEBUG | INFO | ERROR.

(** The VISA session as the driver uses it: [write] returns the number of
    bytes sent, [query] the reply; either may fail with a [VisaIOError]
    (a timeout, a closed session), given by its status code. *)
Class Visa (connection : Type) : Type := {
  visa_write : string -> connection -> (Z + nat) * connection;
  visa_query : string -> connection -> (Z + string) * connection
}.

Section Driver.

Context {connection : Type} `{Visa connection}.

Record VNA : Type := mkVNA {
  conn : connection;
  history : list io_event;
  records : list (level * string)
}.

Definition M (A : Type) : Type := VNA -> result A * VNA.

Definition ret {A : Type} (a : A) : M A := fun s => (Ok a, s).

Definition raise {A : Type} (e : exn) : M A := fun s => (Raise e, s).

Definition bind {A B : Type} (m : M A) (k : A -> M B) : M B :=
  fun s =>
    match m s with
    | (Ok a, s') => k a s'
    | (Raise e, s') => (Raise e, s')
    end.

(** [try: body finally: fin].  The [finally] suite always runs; an
    exception it raises replaces the pending one, otherwise the outcome of
    [body] stands. *)
Definition try_finally {A B : Type} (body : M A) (fin : M B) : M A :=
  fun s =>
    match body s with
    | (r, s') =>
        match fin s' with
        | (Ok _, s'') => (r, s'')
        | (Raise e, s'') => (Raise e, s'')
        end
    end.

(** The session after the module logger has taken one more record. *)
Definition logged (l : level) (msg : string) (s : VNA) : VNA :=
  mkVNA (conn s) (history s) (records s ++ [(l, msg)]).

Definition logger (l : level) (msg : string) : M unit :=
  fun s => (Ok tt, logged l msg s).

Definition of_visa {A : Type} (r : Z + A) : result A :=
  match r with
  | inl code => Raise (VisaIOError code)
  | inr a => Ok a
  end.

(** [self.connection.write(cmd)] *)
Definition connection_write (cmd : string) : M nat :=
  fun s =>
    let (r, c) := visa_write cmd (conn s) in
    (of_visa r, mkVNA c (history s ++ [Wrote cmd]) (records s)).

(** [self.connection.query(cmd)] *)
Definition connection_query (cmd : string) : M string :=
  fun s =>
    let (r, c) := visa_query cmd (conn s) in
    (of_visa r, mkVNA c (history s ++ [Queried cmd]) (records s)).

(** [int(reply)] *)
Definition int (reply : string) : M Z :=
  match py_int reply with
  | Some n => ret n
  | None => raise (ValueError (int_error reply))
  end.

End Driver.

Arguments VNA connection : clear implicits.
Arguments M connection A : clear implicits.

Declare Scope vna_scope.
Delimit Scope vna_scope with vna.
Notation "x <- m ;; k" := (bind m (fun x => k))
  (at level 61, m at next level, right associativity) : vna_scope.
Notation "m ;;; k" := (bind m (fun _ => k))
  (at level 61, right associativity) : vna_scope.

(** ** The driver *)

Section Commands.

Context {connection : Type} `{Visa connection}.
Local Open Scope vna_scope.

(** [VNA.write], lines 75-85, with the status check taken as a parameter:
    [write] and [get_error_status] call each other. *)
Definition write_with (get_error_status : M connection bool) (cmd : string)
  : M connection nat :=
  logger DEBUG ("[write]: " ++ cmd) ;;;
  result <- connection_write cmd ;;
  failed <- get_error_status ;;
  if failed : bool
  then raise (RuntimeError ("command failed: " ++ cmd))
  else ret result.

(** [VNA.get_error_status], lines 96-108.  Python bounds the depth of the
    call stack; [depth] is the number of nested activations of
    [get_error_status] the interpreter still allows, and the call that
    exceeds it raises [RecursionError]. *)
Fixpoint get_error_status (depth : nat) : M connection bool :=
  match depth with
  | O => raise RecursionError
  | S depth' =>
      stb <- connection_query "*STB?" ;;
      status <- int stb ;;
      if negb (status =? 0)%Z
      then
        try_finally
          (error_msgs <- connection_query "SYSTem:ERRor:NEXT?" ;;
           logger ERROR ("command failure: " ++ error_msgs))
          (write_with (get_error_status depth') "*CLS") ;;;
        ret true
      else ret false
  end.

(** [VNA.write] *)
Definition write (depth : nat) (cmd : string) : M connection nat :=
  write_with (get_error_status depth) cmd.

(** [VNA.query], lines 87-93 *)
Definition query (cmd : string) : M connection string :=
  logger DEBUG ("[query]: " ++ cmd) ;;;
  connection_query cmd.

(** [VNA.reset], lines 110-114 *)
Definition reset (depth : nat) : M connection unit :=
  write depth "*RST" ;;; ret tt.

End Commands.

(** ** NumPy *)

(** The NumPy functions [_get_data] calls, on float64 scalars; the array
    functions below apply them elementwise.  [np_fromstring] is
    [np.fromstring(_, sep=',')]: [None] stands for the [ValueError] that
    NumPy announces for text it cannot read to the end. *)
Class NumPy (float : Type) : Type := {
  np_fromstring : string -> option (list float);
  float_of_Z : Z -> float;
  fadd : float -> float -> float;
  fsub : float -> float -> float;
  fmul : float -> float -> float;
  np_hypot : float -> float -> float;
  np_log10 : float -> float;
  np_arctan2 : float -> float -> float
}.

Definition fromstring_error : string :=
  "string or file could not be read to its end due to unmatched data".

Definition reshape_error (size : nat) : string :=
  "cannot reshape array of size "
  ++ NilEmpty.string_of_uint (Nat.to_uint size) ++ " into shape (2)".

Definition data_format_error : string :=
  "data-format must be: 'real-imag', 'db-phase', 'amp-phase'.".

Definition valid_formats : list string :=
  ["real-imag"; "db-phase"; "amp-phase"].

(** The command line built by the [%] formatting at line 131. *)
Definition select_command (trace : string) : string :=
  "CALC:PARameter:SEL " ++ dquote ++ trace ++ dquote.

Definition data_query : string := "CALCulate:DATa? Sdata".

Section Arrays.

Context {float : Type} `{NumPy float}.

(** complex128 scalars and the two complex loops the driver reaches. *)
Definition complex : Type := float * float.

Definition of_float (x : float) : complex := (x, float_of_Z 0).

Definition j : complex := (float_of_Z 0, float_of_Z 1).

Definition cadd (a b : complex) : complex :=
  (fadd (fst a) (fst b), fadd (snd a) (snd b)).

Definition cmul (a b : complex) : complex :=
  (fsub (fmul (fst a) (fst b)) (fmul (snd a) (snd b)),
   fadd (fmul (fst a) (snd b)) (fmul (snd a) (fst b))).

(** [real + 1j*imag] *)
Definition complex_array (real imag : list float) : list complex :=
  map (fun p => cadd (of_float (fst p)) (cmul j (of_float (snd p))))
      (combine real imag).

(** [abs] of a complex array *)
Definition np_abs (z : list complex) : list float :=
  map (fun c => np_hypot (fst c) (snd c)) z.

(** [np.angle] *)
Definition np_angle (z : list complex) : list float :=
  map (fun c => np_arctan2 (snd c) (fst c)) z.

(** The rows of [np.reshape(val, (-1, 2))] when the size of [val] is
    even. *)
Fixpoint rows (val : list float) : list (float * float) :=
  match val with
  | x :: y :: rest => (x, y) :: rows rest
  | _ => []
  end.

(** [np.reshape(val, (-1, 2))] *)
Definition np_reshape (val : list float) : result (list (float * float)) :=
  if Nat.even (length val)
  then Ok (rows val)
  else Raise (ValueError (reshape_error (length val))).

(** [np.transpose] of an array of shape (N, 2): its two rows. *)
Definition np_transpose (a : list (float * float)) : list float * list float :=
  (map fst a, map snd a).

End Arrays.

Section Traces.

Context {connection : Type} `{Visa connection}.
Context {float : Type} `{NumPy float}.
Local Open Scope vna_scope.

Definition lift {A : Type} (r : result A) : M connection A :=
  fun s => (r, s).

(** [VNA._get_data], lines 116-154.  NumPy reports a zero magnitude
    through a warning and an infinite or NaN entry, never through a
    [RuntimeError], so the two [except RuntimeError] suites do not run. *)
Definition _get_data (depth : nat) (trace data_format : string)
  : M connection (list float * list float) :=
  write depth (select_command trace) ;;;
  val <- query data_query ;;
  val <- lift (match np_fromstring val with
               | Some a => Ok a
               | None => Raise (ValueError fromstring_error)
               end) ;;
  a <- lift (np_reshape val) ;;
  let (real, imag) := np_transpose a in
  if lower data_format =? "real-imag" then
    ret (real, imag)
  else if lower data_format =? "db-phase" then
    ret (map (fun x => fmul (float_of_Z 20) (np_log10 x))
             (np_abs (complex_array real imag)),
         np_angle (complex_array real imag))
  else if lower data_format =? "amp-phase" then
    ret (map (fun x => fmul x x) (np_abs (complex_array real imag)),
         np_angle (complex_array real imag))
  else
    raise (ValueError data_format_error).

(** [@validate_call] on a parameter annotated [Tuple[str]]: the
    annotation is the type of tuples of exactly one string, and the
    validator refuses every other length before the body runs. *)
Definition validate_Tuple_str (traces : list string) : M connection (list string) :=
  match traces with
  | [trace] => ret [trace]
  | _ => raise ValidationError
  end.

(** The [for] loop of [VNA.get_traces], lines 176-181. *)
Fixpoint get_traces_loop (depth : nat) (traces : list string)
    (data_format : string) (temp : list (list float * list float))
  : M connection (list (list float * list float)) :=
  match traces with
  | [] => ret temp
  | trace :: traces' =>
      r <- _get_data depth trace data_format ;;
      get_traces_loop depth traces' data_format (temp ++ [r])
  end.

(** [VNA.get_traces], lines 157-181 *)
Definition get_traces (depth : nat) (traces : list string)
    (data_format : string)
  : M connection (list (list float * list float)) :=
  traces <- validate_Tuple_str traces ;;
  get_traces_loop depth traces data_format [].

End Traces.

(** ** Vocabulary of the statements *)

(** The exceptions that [write] and the status check let through: the
    command error, the interpreter's [RecursionError], an error of the
    session, and the [ValueError] of [int] on a reply that is no number. *)
Definition raised_by_write (e : exn) : Prop :=
  match e with
  | RuntimeError _ | RecursionError | VisaIOError _ => True
  | ValueError msg => exists reply, msg = int_error reply
  | ValidationError => False
  end.

(** A payload [r1, i1, ..., rN, iN] as the flat array of its values. *)
Fixpoint interleaved {float : Type} (real imag : list float) : list float :=
  match real, imag with
  | r :: real', i :: imag' => r :: i :: interleaved real' imag'
  | _, _ => []
  end.

(** How often the command [cmd] was written to the session. *)
Definition sent (cmd : string) (h : list io_event) : nat :=
  length (filter (io_event_eqb (Wrote cmd)) h).

(** ** A scripted instrument and a symbolic NumPy

    An instrument whose replies are fixed in advance, and floats kept as
    the expressions that compute them, make the driver run on concrete
    inputs. *)
Module Scripted.

(** The session holds the replies still to come; a query with none left
    times out ([VI_ERROR_TMO]).  Writes succeed and report the length of
    the command and its terminator. *)
#[global] Instance session : Visa (list string) := {
  visa_write cmd c := (inr (String.length cmd + 1), c);
  visa_query cmd c :=
    match c with
    | [] => (inl (-1073807339)%Z, [])
    | reply :: c' => (inr reply, c')
    end
}.

Definition connect (replies : list string) : VNA (list string) :=
  mkVNA replies [] [].

Inductive sym : Type :=
| Lit (z : Z)
| Add (a b : sym)
| Sub (a b : sym)
| Mul (a b : sym)
| Hypot (a b : sym)
| Log10 (a : sym)
| Arctan2 (a b : sym).

(** The comma-separated fields of a payload. *)
Fixpoint fields (cur : string) (s : string) : list string :=
  match s with
  | EmptyString => [cur]
  | String c s' =>
      if Ascii.eqb c ","
      then cur :: fields EmptyString s'
      else fields (cur ++ String c EmptyString) s'
  end.

(** The literals are read up to the first field that is not one. *)
Fixpoint literals (fs : list string) : list sym :=
  match fs with
  | [] => []
  | f :: fs' =>
      match py_int f with
      | Some z => Lit z :: literals fs'
      | None => []
      end
  end.

(** Integer-valued payloads only. *)
#[global] Instance numpy : NumPy sym := {
  np_fromstring v := Some (literals (fields EmptyString v));
  float_of_Z := Lit;
  fadd := Add;
  fsub := Sub;
  fmul := Mul;
  np_hypot := Hypot;
  np_log10 := Log10;
  np_arctan2 := Arctan2
}.

End Scripted.

(** ** Construction, and the example program *)

(** [VNAConfig], lines 12-15. *)
Record VNAConfig : Type := mkVNAConfig {
  timeout : Z;
  write_termination : string;
  read_termination : string
}.

Definition newline : string := String (ascii_of_nat 10) EmptyString.

(** [VNAConfig()]: the defaults of the three fields. *)
Definition default_config : VNAConfig := mkVNAConfig 1000 newline newline.

(** The rest of the PyVISA interface the driver uses: creating the
    resource manager, opening a resource, and assigning the three session
    attributes.  Creating the manager and opening a resource raise Python
    exceptions of any class; an attribute assignment fails with a VISA
    status code. *)
Class PyVisa (connection : Type) : Type := {
  ResourceManager : string -> result unit;
  open_resource : string -> result connection;
  set_timeout : Z -> connection -> (Z + unit) * connection;
  set_write_termination : string -> connection -> (Z + unit) * connection;
  set_read_termination : string -> connection -> (Z + unit) * connection
}.

Definition failed_to_connect : exn := RuntimeError "failed to connect".

(** The address in [main.py]. *)
Definition ZNB_ADDR : string := "TCPIP::192.168.29.103::5025::SOCKET".

(** What [print] has written. *)
Inductive printed (float : Type) : Type :=
| PrintStr (s : string)
| PrintTraces (temp : list (list float * list float)).
Arguments PrintStr {float} s.
Arguments PrintTraces {float} temp.

Section Construction.

Context {connection : Type} `{Visa connection} `{PyVisa connection}.
Local Open Scope vna_scope.

(** An assignment to an attribute of [self.connection]. *)
Definition set_attribute (f : connection -> (Z + unit) * connection)
  : M connection unit :=
  fun s =>
    let (r, c) := f (conn s) in
    (of_visa r, mkVNA c (history s) (records s)).

(** Lines 56-65: the suite of the [try] once the resource is open and the
    configuration is at hand. *)
Definition handshake (depth : nat) (config : VNAConfig) : M connection unit :=
  set_attribute (set_timeout (timeout config)) ;;;
  set_attribute (set_write_termination (write_termination config)) ;;;
  set_attribute (set_read_termination (read_termination config)) ;;;
  write depth "*CLS" ;;;
  idn <- query "*IDN?" ;;
  let idn := strip idn in
  write depth "FORMat:DATA ASCii" ;;;
  logger INFO ("connection established! " ++ idn).

(** [VNA.__init__], lines 44-67.  Beside the outcome stand the records
    of the module logger, which outlives a failed construction, and the
    session as the construction left it, when one was opened; a
    constructed instance is its configuration and its session.  The
    resource manager is created before the [try]; what is raised inside
    the [try], whatever its class, is replaced by the connection error.
    With [config] absent the first attribute read, [config.timeout],
    raises inside the [try], after the resource was opened. *)
Definition __init__ (depth : nat) (connection_string : string)
    (config : option VNAConfig) (log : list (level * string))
  : result (VNAConfig * VNA connection)
    * (list (level * string) * option (VNA connection)) :=
  let log :=
    log ++ [(INFO, ("connecting to '" ++ connection_string ++ "'")%string)] in
  match ResourceManager "@py" with
  | Raise e => (Raise e, (log, None))
  | Ok _ =>
      match open_resource connection_string with
      | Raise _ => (Raise failed_to_connect, (log, None))
      | Ok c =>
          match config with
          | None => (Raise failed_to_connect, (log, Some (mkVNA c [] log)))
          | Some cfg =>
              match handshake depth cfg (mkVNA c [] log) with
              | (Ok _, s) => (Ok (cfg, s), (records s, Some s))
              | (Raise _, s) => (Raise failed_to_connect, (records s, Some s))
              end
          end
      end
  end.

Context {float : Type} `{NumPy float}.

(** [main], lines 7-15 of [main.py]: the outcome, with the session as
    [main] leaves it, and what was printed. *)
Definition main (depth : nat) (log : list (level * string))
  : result (VNA connection) * list (printed float) :=
  match __init__ depth ZNB_ADDR (Some default_config) log with
  | (Raise e, _) => (Raise e, [])
  | (Ok (_, vna), _) =>
      match query "*IDN?" vna with
      | (Raise e, _) => (Raise e, [])
      | (Ok idn, vna) =>
          match get_traces depth ["Trc1"] "db-phase" vna with
          | (Raise e, _) => (Raise e, [PrintStr idn])
          | (Ok temp, vna) => (Ok vna, [PrintStr idn; PrintTraces temp])
          end
      end
  end.

End Construction.

(** ** More vocabulary *)

(** The calls the status check makes on the session. *)
Definition status_event (e : io_event) : bool :=
  io_event_eqb e (Queried "*STB?")
  || io_event_eqb e (Queried "SYSTem:ERRor:NEXT?")
  || io_event_eqb e (Wrote "*CLS").

(** How often the query [cmd] was sent to the session. *)
Definition queried (cmd : string) (h : list io_event) : nat :=
  length (filter (io_event_eqb (Queried cmd)) h).

(** ** Two more instruments *)
Module Bench.

(** An instrument whose status byte reads 4 whatever is sent to it. *)
Inductive stuck : Type := Stuck.

#[global] Instance stuck_session : Visa stuck := {
  visa_write cmd c := (inr (String.length cmd + 1), c);
  visa_query cmd c := (inr "4", c)
}.

(** A session that has been closed: every call fails
    ([VI_ERROR_INV_OBJECT]). *)
Inductive closed : Type := Closed.

#[global] Instance closed_session : Visa closed := {
  visa_write cmd c := (inl (-1073807346)%Z, c);
  visa_query cmd c := (inl (-1073807346)%Z, c)
}.

(** A resource manager that opens the scripted instrument with the given
    replies pending, at every address. *)
Definition backend (replies : list string) : PyVisa (list string) := {|
  ResourceManager := fun _ => Ok tt;
  open_resource := fun _ => Ok replies;
  set_timeout := fun _ c => (inr tt, c);
  set_write_termination := fun _ c => (inr tt, c);
  set_read_termination := fun _ c => (inr tt, c)
|}.

(** An instrument that answers the handshake, its identification padded
    with blanks, and the session a construction on it gives. *)
Definition greeting : list string := ["0"; " Rohde&Schwarz,ZNB8 "; "0"].

Definition init_session : VNA (list string) :=
  Eval vm_compute in
    match
      fst (@__init__ _ Scripted.session (backend greeting)
             1 ZNB_ADDR (Some default_config) [])
    with
    | Ok (_, s) => s
    | Raise _ => Scripted.connect []
    end.

(** An instrument in good order: the status byte reads zero each time,
    and one sample is returned for the trace; the session and the output
    of [main] run against it. *)
Definition healthy : list string :=
  ["0"; "Rohde&Schwarz,ZNB8"; "0"; "Rohde&Schwarz,ZNB8"; "0"; "1,0"].

Definition main_run : result (VNA (list string)) * list (printed Scripted.sym) :=
  Eval vm_compute in
    @main _ Scripted.session (backend healthy) Scripted.sym Scripted.numpy 1 [].

Definition main_session : VNA (list string) :=
  Eval vm_compute in
    match fst main_run with
    | Ok vna => vna
    | Raise _ => Scripted.connect []
    end.

End Bench.

(** * Properties *)

Example py_int_zero : py_int "0" = Some 0%Z.
Proof. reflexivity. Qed.

Example py_int_padded :
  py_int (" +1_6" ++ String (ascii_of_nat 10) EmptyString) = Some 16%Z.
Proof. reflexivity. Qed.

Example py_int_text : py_int "-113,no error" = None.
Proof. reflexivity. Qed.

Example py_int_separator :
  py_int (String (ascii_of_nat 28) "0") = None
  /\ strip (String (ascii_of_nat 28) "0") = "0"
  /\ py_int (String (ascii_of_nat 160) "0") = Some 0%Z.
Proof. repeat split. Qed.

Example lower_mixed : lower "Real-IMAG" = "real-imag".
Proof. reflexivity. Qed.

(** ** Equations of the status check and of [write] *)

Section StatusFacts.

Context {connection : Type} `{Visa connection}.

Lemma connection_write_history cmd (s s' : VNA connection) r :
  connection_write cmd s = (r, s') ->
  history s' = history s ++ [Wrote cmd] /\ records s' = records s.
Proof.
  unfold connection_write. destruct (visa_write cmd (conn s)) as [o c].
  intros E. inversion E; subst. simpl. auto.
Qed.

Lemma connection_query_history cmd (s s' : VNA connection) r :
  connection_query cmd s = (r, s') ->
  history s' = history s ++ [Queried cmd] /\ records s' = records s.
Proof.
  unfold connection_query. destruct (visa_query cmd (conn s)) as [o c].
  intros E. inversion E; subst. simpl. auto.
Qed.

Lemma connection_write_raises cmd (s s' : VNA connection) e :
  connection_write cmd s = (Raise e, s') -> exists code, e = VisaIOError code.
Proof.
  unfold connection_write. destruct (visa_write cmd (conn s)) as [[code|n] c];
    simpl; intros E; inversion E; eauto.
Qed.

Lemma connection_query_raises cmd (s s' : VNA connection) e :
  connection_query cmd s = (Raise e, s') -> exists code, e = VisaIOError code.
Proof.
  unfold connection_query. destruct (visa_query cmd (conn s)) as [[code|n] c];
    simpl; intros E; inversion E; eauto.
Qed.

Lemma write_with_eq (check : M connection bool) cmd s :
  write_with check cmd s =
  match connection_write cmd (logged DEBUG ("[write]: " ++ cmd) s) with
  | (Ok result, s1) =>
      match check s1 with
      | (Ok true, s2) => (Raise (RuntimeError ("command failed: " ++ cmd)), s2)
      | (Ok false, s2) => (Ok result, s2)
      | (Raise e, s2) => (Raise e, s2)
      end
  | (Raise e, s1) => (Raise e, s1)
  end.
Proof.
  unfold write_with, bind, logger.
  destruct (connection_write cmd _) as [[result|e] s1]; [|reflexivity].
  destruct (check s1) as [[[|]|e] s2]; reflexivity.
Qed.

Lemma get_error_status_eq depth s :
  get_error_status (S depth) s =
  match connection_query "*STB?" s with
  | (Raise e, s1) => (Raise e, s1)
  | (Ok stb, s1) =>
      match py_int stb with
      | None => (Raise (ValueError (int_error stb)), s1)
      | Some status =>
          if (status =? 0)%Z then (Ok false, s1)
          else
            match connection_query "SYSTem:ERRor:NEXT?" s1 with
            | (Ok error_msgs, s2) =>
                match write depth "*CLS"
                        (logged ERROR ("command failure: " ++ error_msgs) s2)
                with
                | (Ok _, s3) => (Ok true, s3)
                | (Raise e, s3) => (Raise e, s3)
                end
            | (Raise e, s2) =>
                match write depth "*CLS" s2 with
                | (Ok _, s3) => (Raise e, s3)
                | (Raise e', s3) => (Raise e', s3)
                end
            end
      end
  end.
Proof.
  cbn [get_error_status]. unfold bind at 1.
  destruct (connection_query "*STB?" s) as [[stb|e] s1]; [|reflexivity].
  unfold bind at 1, int.
  destruct (py_int stb) as [status|]; [|reflexivity].
  unfold ret at 1.
  destruct (status =? 0)%Z; [reflexivity|]. cbn [negb].
  unfold bind at 1, try_finally, bind at 1, logger, write.
  destruct (connection_query "SYSTem:ERRor:NEXT?" s1) as [[msg|e] s2].
  - destruct (write_with _ "*CLS" _) as [[n|e] s3]; reflexivity.
  - destruct (write_with _ "*CLS" _) as [[n|e'] s3]; reflexivity.
Qed.

(** Every call leaves the earlier history in place and adds to it. *)
Lemma status_and_write_history depth :
  (forall (s s' : VNA connection) r,
      get_error_status depth s = (r, s') ->
      exists io, history s' = history s ++ io)
  /\ (forall cmd (s s' : VNA connection) r,
      write depth cmd s = (r, s') ->
      exists io, history s' = history s ++ Wrote cmd :: io).
Proof.
  assert (step : forall d,
    (forall (s s' : VNA connection) r,
        get_error_status d s = (r, s') ->
        exists io, history s' = history s ++ io) ->
    forall cmd (s s' : VNA connection) r,
      write d cmd s = (r, s') ->
      exists io, history s' = history s ++ Wrote cmd :: io).
  { intros d IH cmd s s' r. unfold write. rewrite write_with_eq.
    destruct (connection_write cmd _) as [[n|e] s1] eqn:Ew;
      apply connection_write_history in Ew as [Hh _]; cbn in Hh.
    - destruct (get_error_status d s1) as [[[|]|e] s2] eqn:Es;
        apply IH in Es as [io Hio]; intros E; inversion E; subst;
        exists io; rewrite Hio, Hh, <- app_assoc; reflexivity.
    - intros E; inversion E; subst. exists []. exact Hh. }
  induction depth as [|d [IHs IHw]].
  - split.
    + intros s s' r E. inversion E; subst. exists []. now rewrite app_nil_r.
    + apply step. intros s s' r E. inversion E; subst. exists [].
      now rewrite app_nil_r.
  - assert (IHs' : forall (s s' : VNA connection) r,
        get_error_status (S d) s = (r, s') ->
        exists io, history s' = history s ++ io).
    { intros s s' r. rewrite get_error_status_eq.
      destruct (connection_query "*STB?" s) as [[stb|e] s1] eqn:Eq;
        apply connection_query_history in Eq as [Hh _].
      2:{ intros E; inversion E; subst. eauto. }
      destruct (py_int stb) as [status|].
      2:{ intros E; inversion E; subst. eauto. }
      destruct (status =? 0)%Z.
      { intros E; inversion E; subst. eauto. }
      destruct (connection_query "SYSTem:ERRor:NEXT?" s1) as [[msg|e] s2] eqn:Ee;
        apply connection_query_history in Ee as [He _].
      - destruct (write d "*CLS" _) as [[n|e] s3] eqn:Ew;
          apply IHw in Ew as [io Hio]; cbn in Hio;
          intros E; inversion E; subst;
          eexists; rewrite Hio, He, Hh, <- !app_assoc; reflexivity.
      - destruct (write d "*CLS" s2) as [[n|e'] s3] eqn:Ew;
          apply IHw in Ew as [io Hio];
          intros E; inversion E; subst;
          eexists; rewrite Hio, He, Hh, <- !app_assoc; reflexivity. }
    split; [exact IHs'|]. apply step. exact IHs'.
Qed.

End StatusFacts.

(** ** The status check and [write] *)

Section StatusClaims.

Context {connection : Type} `{Visa connection}.

(** C4, as amended.  The error-status check queries the status byte
    ([*STB?]).  When it reads zero the check reports [false] and makes no
    further call on the session.  When it reads nonzero the check queries
    [SYSTem:ERRor:NEXT?], logs the reply, and sends [*CLS] through
    [write], which reads the status byte once more; when that second
    reading is zero the check reports [true], having made exactly these
    four calls.  When the query for the error message fails, [*CLS] is
    sent all the same and the check raises. *)
Theorem get_error_status_reports depth (s s1 : VNA connection) stb status :
  connection_query "*STB?" s = (Ok stb, s1) ->
  py_int stb = Some status ->
  (status = 0%Z ->
   get_error_status (S (S depth)) s = (Ok false, s1)
   /\ history s1 = history s ++ [Queried "*STB?"])
  /\ (status <> 0%Z ->
      (forall error_msgs s2 n s3 stb' s4,
          connection_query "SYSTem:ERRor:NEXT?" s1 = (Ok error_msgs, s2) ->
          connection_write "*CLS"
            (logged DEBUG "[write]: *CLS"
               (logged ERROR ("command failure: " ++ error_msgs) s2))
          = (Ok n, s3) ->
          connection_query "*STB?" s3 = (Ok stb', s4) ->
          py_int stb' = Some 0%Z ->
          get_error_status (S (S depth)) s = (Ok true, s4)
          /\ history s4 =
             history s ++ [Queried "*STB?"; Queried "SYSTem:ERRor:NEXT?";
                           Wrote "*CLS"; Queried "*STB?"]
          /\ records s4 =
             records s ++ [(ERROR, ("command failure: " ++ error_msgs)%string);
                           (DEBUG, "[write]: *CLS")])
      /\ (forall e s2,
             connection_query "SYSTem:ERRor:NEXT?" s1 = (Raise e, s2) ->
             exists e' s3 io,
               get_error_status (S (S depth)) s = (Raise e', s3)
               /\ history s3 =
                  history s ++ [Queried "*STB?"; Queried "SYSTem:ERRor:NEXT?";
                                Wrote "*CLS"] ++ io)).
Proof.
  intros Hq Hstb.
  pose proof (connection_query_history _ _ _ _ Hq) as [Hh1 Hr1].
  split.
  - intros ->. rewrite get_error_status_eq, Hq, Hstb. cbn. auto.
  - intros Hnz. apply Z.eqb_neq in Hnz. split.
    + intros error_msgs s2 n s3 stb' s4 He Hw Hq' Hstb'.
      rewrite get_error_status_eq, Hq, Hstb, Hnz, He.
      unfold write. rewrite write_with_eq. cbn [append] in Hw |- *.
      rewrite Hw, get_error_status_eq, Hq', Hstb'. cbn.
      apply connection_query_history in He as [Hh2 Hr2].
      apply connection_write_history in Hw as [Hh3 Hr3].
      apply connection_query_history in Hq' as [Hh4 Hr4].
      cbn in Hh3, Hr3.
      repeat split.
      * rewrite Hh4, Hh3, Hh2, Hh1, <- !app_assoc. reflexivity.
      * rewrite Hr4, Hr3, Hr2, Hr1, <- !app_assoc. reflexivity.
    + intros e s2 He.
      rewrite get_error_status_eq, Hq, Hstb, Hnz, He.
      apply connection_query_history in He as [Hh2 _].
      destruct (write (S depth) "*CLS" s2) as [[n|e'] s3] eqn:Ew;
        apply (proj2 (status_and_write_history (S depth))) in Ew as [io Hio];
        do 3 eexists; (split; [reflexivity|]);
        rewrite Hio, Hh2, Hh1, <- !app_assoc; reflexivity.
Qed.

(** C3, as amended.  [write] sends the command and then reads the status
    byte.  When it reads zero, [write] returns what the session returned
    and nothing else was sent.  When it reads nonzero, the error message
    is fetched and [*CLS] is sent, after which the status byte is read
    again; when that second reading is zero, [write] raises the command
    error naming the original command, and [*CLS] was sent exactly once
    by the check. *)
Theorem write_checks_status depth cmd (s s1 s2 : VNA connection) n stb status :
  connection_write cmd (logged DEBUG ("[write]: " ++ cmd) s) = (Ok n, s1) ->
  connection_query "*STB?" s1 = (Ok stb, s2) ->
  py_int stb = Some status ->
  (status = 0%Z ->
   write (S (S depth)) cmd s = (Ok n, s2)
   /\ history s2 = history s ++ [Wrote cmd; Queried "*STB?"])
  /\ (status <> 0%Z ->
      forall error_msgs s3 n' s4 stb' s5,
        connection_query "SYSTem:ERRor:NEXT?" s2 = (Ok error_msgs, s3) ->
        connection_write "*CLS"
          (logged DEBUG "[write]: *CLS"
             (logged ERROR ("command failure: " ++ error_msgs) s3))
        = (Ok n', s4) ->
        connection_query "*STB?" s4 = (Ok stb', s5) ->
        py_int stb' = Some 0%Z ->
        write (S (S depth)) cmd s
        = (Raise (RuntimeError ("command failed: " ++ cmd)), s5)
        /\ history s5 =
           history s ++ Wrote cmd ::
             [Queried "*STB?"; Queried "SYSTem:ERRor:NEXT?";
              Wrote "*CLS"; Queried "*STB?"]).
Proof.
  intros Hw Hq Hstb.
  pose proof (connection_write_history _ _ _ _ Hw) as [Hh0 _]. cbn in Hh0.
  pose proof (connection_query_history _ _ _ _ Hq) as [Hh1 _].
  split.
  - intros ->. unfold write.
    rewrite write_with_eq, Hw, get_error_status_eq, Hq, Hstb. cbn.
    split; [reflexivity|]. rewrite Hh1, Hh0, <- app_assoc. reflexivity.
  - intros Hnz error_msgs s3 n' s4 stb' s5 He Hw' Hq' Hstb'.
    apply Z.eqb_neq in Hnz. unfold write at 1.
    rewrite write_with_eq, Hw, get_error_status_eq, Hq, Hstb, Hnz, He.
    unfold write. rewrite write_with_eq. cbn [append] in Hw' |- *.
    rewrite Hw', get_error_status_eq, Hq', Hstb'. cbn.
    split; [reflexivity|].
    apply connection_query_history in He as [Hh2 _].
    apply connection_write_history in Hw' as [Hh3 _].
    apply connection_query_history in Hq' as [Hh4 _].
    cbn in Hh3.
    rewrite Hh4, Hh3, Hh2, Hh1, Hh0, <- !app_assoc. reflexivity.
Qed.

End StatusClaims.

(** ** Reshaping the payload *)

Section ArrayFacts.

Context {float : Type}.

Lemma rows_length (N : nat) : forall val : list float,
  length val = 2 * N -> length (rows val) = N.
Proof.
  induction N as [|N IH]; intros [|x [|y rest]]; cbn; intros E;
    try discriminate; try lia.
  f_equal. apply IH. cbn in E. lia.
Qed.

Lemma rows_flatten (N : nat) : forall val : list float,
  length val = 2 * N ->
  flat_map (fun p => [fst p; snd p]) (rows val) = val.
Proof.
  induction N as [|N IH]; intros [|x [|y rest]]; cbn; intros E;
    try discriminate; try lia; try reflexivity.
  do 2 f_equal. apply IH. cbn in E. lia.
Qed.

Lemma rows_interleaved : forall real imag : list float,
  length real = length imag ->
  np_transpose (rows (interleaved real imag)) = (real, imag).
Proof.
  unfold np_transpose.
  induction real as [|r real IH]; intros [|i imag] E; try discriminate.
  - reflexivity.
  - cbn in E. injection E as E. specialize (IH imag E).
    cbn. injection IH as -> ->. reflexivity.
Qed.

Lemma interleaved_length : forall real imag : list float,
  length real = length imag ->
  length (interleaved real imag) = 2 * length real.
Proof.
  induction real as [|r real IH]; intros [|i imag] E; try discriminate.
  - reflexivity.
  - cbn in E. injection E as E. cbn. rewrite (IH imag E). lia.
Qed.

Lemma np_reshape_even (N : nat) (val : list float) :
  length val = 2 * N -> np_reshape val = Ok (rows val).
Proof.
  intros E. unfold np_reshape. rewrite E, Nat.even_even. reflexivity.
Qed.

Lemma np_reshape_odd (N : nat) (val : list float) :
  length val = 2 * N + 1 ->
  np_reshape val = Raise (ValueError (reshape_error (length val))).
Proof.
  intros E. unfold np_reshape. rewrite E at 1. rewrite Nat.even_odd.
  reflexivity.
Qed.

End ArrayFacts.

(** ** Fetching traces *)

Section TraceFacts.

Context {connection : Type} `{Visa connection}.
Context {float : Type} `{NumPy float}.

(** What [write] and the status check can raise. *)
Lemma status_and_write_raise depth :
  (forall (s s' : VNA connection) e,
      get_error_status depth s = (Raise e, s') -> raised_by_write e)
  /\ (forall cmd (s s' : VNA connection) e,
      write depth cmd s = (Raise e, s') -> raised_by_write e).
Proof.
  assert (step : forall d,
    (forall (s s' : VNA connection) e,
        get_error_status d s = (Raise e, s') -> raised_by_write e) ->
    forall cmd (s s' : VNA connection) e,
      write d cmd s = (Raise e, s') -> raised_by_write e).
  { intros d IH cmd s s' e. unfold write. rewrite write_with_eq.
    destruct (connection_write cmd _) as [[n|e0] s1] eqn:Ew.
    - destruct (get_error_status d s1) as [[[|]|e1] s2] eqn:Es;
        intros E; inversion E; subst; cbn; eauto.
    - apply connection_write_raises in Ew as [code ->].
      intros E; inversion E; subst. exact I. }
  induction depth as [|d [IHs IHw]].
  - assert (base : forall (s s' : VNA connection) e,
        get_error_status 0 s = (Raise e, s') -> raised_by_write e).
    { intros s s' e E. inversion E; subst. exact I. }
    split; [exact base|]. apply step. exact base.
  - assert (IHs' : forall (s s' : VNA connection) e,
        get_error_status (S d) s = (Raise e, s') -> raised_by_write e).
    { intros s s' e. rewrite get_error_status_eq.
      destruct (connection_query "*STB?" s) as [[stb|e0] s1] eqn:Eq.
      2:{ apply connection_query_raises in Eq as [code ->].
          intros E; inversion E; subst. exact I. }
      destruct (py_int stb) as [status|].
      2:{ intros E; inversion E; subst. cbn. eauto. }
      destruct (status =? 0)%Z; [discriminate|].
      destruct (connection_query "SYSTem:ERRor:NEXT?" s1) as [[msg|e0] s2] eqn:Ee.
      - destruct (write d "*CLS" _) as [[n|e1] s3] eqn:Ew; [discriminate|].
        intros E; inversion E; subst. eapply IHw, Ew.
      - apply connection_query_raises in Ee as [code ->].
        destruct (write d "*CLS" s2) as [[n|e1] s3] eqn:Ew;
          intros E; inversion E; subst; [exact I|]. eapply IHw, Ew. }
    split; [exact IHs'|]. apply step. exact IHs'.
Qed.

Lemma raised_by_write_not_format_error e :
  raised_by_write e -> e <> ValueError data_format_error.
Proof.
  destruct e; cbn; try discriminate.
  intros [reply ->] E. discriminate E.
Qed.

Lemma query_eq cmd (s : VNA connection) :
  query cmd s = connection_query cmd (logged DEBUG ("[query]: " ++ cmd) s).
Proof. reflexivity. Qed.

Lemma query_history cmd (s s' : VNA connection) r :
  query cmd s = (r, s') -> history s' = history s ++ [Queried cmd].
Proof.
  rewrite query_eq. intros E.
  apply connection_query_history in E as [E _]. exact E.
Qed.

(** [_get_data] once the two calls on the instrument have returned: what
    is left is a computation on the payload. *)
Lemma get_data_eq depth trace data_format (s s1 s2 : VNA connection) n v :
  write depth (select_command trace) s = (Ok n, s1) ->
  query data_query s1 = (Ok v, s2) ->
  _get_data (float := float) depth trace data_format s =
  (match np_fromstring v with
   | None => Raise (ValueError fromstring_error)
   | Some val =>
       match np_reshape val with
       | Raise e => Raise e
       | Ok a =>
           let (real, imag) := np_transpose a in
           if lower data_format =? "real-imag" then Ok (real, imag)
           else if lower data_format =? "db-phase" then
             Ok (map (fun x => fmul (float_of_Z 20) (np_log10 x))
                     (np_abs (complex_array real imag)),
                 np_angle (complex_array real imag))
           else if lower data_format =? "amp-phase" then
             Ok (map (fun x => fmul x x) (np_abs (complex_array real imag)),
                 np_angle (complex_array real imag))
           else Raise (ValueError data_format_error)
       end
   end, s2).
Proof.
  intros Hw Hq. unfold _get_data.
  unfold bind at 1. rewrite Hw. unfold bind at 1. rewrite Hq.
  unfold bind at 1, lift at 1.
  destruct (np_fromstring v) as [val|]; [|reflexivity].
  unfold bind at 1, lift at 1.
  destruct (np_reshape val) as [a|e]; [|reflexivity].
  destruct (np_transpose a) as [real imag].
  destruct (lower data_format =? "real-imag"); [reflexivity|].
  destruct (lower data_format =? "db-phase"); [reflexivity|].
  destruct (lower data_format =? "amp-phase"); reflexivity.
Qed.

(** The format is looked at through [lower] only. *)
Lemma get_data_lower depth trace fmt fmt' (s : VNA connection) :
  lower fmt = lower fmt' ->
  _get_data (float := float) depth trace fmt s = _get_data depth trace fmt' s.
Proof.
  intros E. unfold _get_data. rewrite E. reflexivity.
Qed.

End TraceFacts.

Section TraceClaims.

Context {connection : Type} `{Visa connection}.
Context {float : Type} `{NumPy float}.

Lemma valid_format_cases (fmt : string) :
  In (lower fmt) valid_formats ->
  (lower fmt =? "real-imag") = true
  \/ ((lower fmt =? "real-imag") = false
      /\ (lower fmt =? "db-phase") = true)
  \/ ((lower fmt =? "real-imag") = false
      /\ (lower fmt =? "db-phase") = false
      /\ (lower fmt =? "amp-phase") = true).
Proof.
  cbn. intros [E|[E|[E|[]]]]; rewrite <- E; cbn; auto.
Qed.

Lemma invalid_format_cases (fmt : string) :
  ~ In (lower fmt) valid_formats ->
  (lower fmt =? "real-imag") = false
  /\ (lower fmt =? "db-phase") = false
  /\ (lower fmt =? "amp-phase") = false.
Proof.
  cbn. intros N. repeat split; apply String.eqb_neq; intros E;
    apply N; rewrite E; auto.
Qed.

(** C1, as amended.  For every unrecognized format string,
    [_get_data] raises the invalid-argument error once the trace has been
    selected, the data queried and the payload reshaped: the select
    command has been written, with its status check, and the data query
    sent before the error is raised, and nothing is sent after the query. *)
Theorem get_data_unrecognized_format depth trace fmt
    (s s1 s2 : VNA connection) n v (val : list float) N :
  ~ In (lower fmt) valid_formats ->
  write depth (select_command trace) s = (Ok n, s1) ->
  query data_query s1 = (Ok v, s2) ->
  np_fromstring v = Some val ->
  length val = 2 * N ->
  _get_data depth trace fmt s = (Raise (ValueError data_format_error), s2)
  /\ exists io,
      history s2 =
      history s ++ Wrote (select_command trace) :: io ++ [Queried data_query].
Proof.
  intros Hfmt Hw Hq Hv Hlen.
  apply invalid_format_cases in Hfmt as (E1 & E2 & E3).
  split.
  - rewrite (get_data_eq _ _ _ _ _ _ _ _ Hw Hq), Hv, (np_reshape_even N _ Hlen).
    destruct (np_transpose (rows val)) as [real imag].
    rewrite E1, E2, E3. reflexivity.
  - apply (proj2 (status_and_write_history depth)) in Hw as [io Hio].
    apply query_history in Hq. exists io.
    rewrite Hq, Hio, <- app_assoc. reflexivity.
Qed.

(** C5.  For every valid format and every payload of 2N values,
    [_get_data] returns two sequences of length N each. *)
Theorem get_data_two_sequences depth trace fmt
    (s s1 s2 : VNA connection) n v (val : list float) N :
  In (lower fmt) valid_formats ->
  write depth (select_command trace) s = (Ok n, s1) ->
  query data_query s1 = (Ok v, s2) ->
  np_fromstring v = Some val ->
  length val = 2 * N ->
  exists first second,
    _get_data depth trace fmt s = (Ok (first, second), s2)
    /\ length first = N /\ length second = N.
Proof.
  intros Hfmt Hw Hq Hv Hlen.
  rewrite (get_data_eq _ _ _ _ _ _ _ _ Hw Hq), Hv, (np_reshape_even N _ Hlen).
  pose proof (rows_length N val Hlen) as Hrows.
  unfold np_transpose, np_abs, np_angle, complex_array.
  apply valid_format_cases in Hfmt as [E1|[[E1 E2]|(E1 & E2 & E3)]];
    rewrite ?E1, ?E2, ?E3; do 2 eexists; (split; [reflexivity|]);
    rewrite ?length_map, ?length_combine, ?length_map, Hrows;
    split; lia.
Qed.

(** C8.  With the real-imag format the two sequences returned are the
    parsed values themselves: for the payload r1, i1, ..., rN, iN the
    first is r1..rN and the second i1..iN. *)
Theorem get_data_real_imag_passthrough depth trace fmt
    (s s1 s2 : VNA connection) n v (real imag : list float) :
  lower fmt = "real-imag" ->
  write depth (select_command trace) s = (Ok n, s1) ->
  query data_query s1 = (Ok v, s2) ->
  length real = length imag ->
  np_fromstring v = Some (interleaved real imag) ->
  _get_data depth trace fmt s = (Ok (real, imag), s2).
Proof.
  intros Hfmt Hw Hq Hlen Hv.
  rewrite (get_data_eq _ _ _ _ _ _ _ _ Hw Hq), Hv.
  rewrite (np_reshape_even (length real) _ (interleaved_length _ _ Hlen)).
  rewrite (rows_interleaved _ _ Hlen), Hfmt. reflexivity.
Qed.

(** C9.  The format is matched without regard to case: a string whose
    lowercase form is one of the three names gives the result of that
    name, and the invalid-argument error is raised only for strings whose
    lowercase form is none of the three. *)
Theorem data_format_case_insensitive depth trace fmt (s : VNA connection) :
  (forall name,
      In name valid_formats -> lower fmt = name ->
      _get_data (float := float) depth trace fmt s
      = _get_data depth trace name s)
  /\ (forall s',
        _get_data (float := float) depth trace fmt s
        = (Raise (ValueError data_format_error), s') ->
        ~ In (lower fmt) valid_formats).
Proof.
  split.
  - intros name Hin E. apply get_data_lower. rewrite E.
    cbn in Hin. destruct Hin as [<-|[<-|[<-|[]]]]; reflexivity.
  - intros s' Hr Hin.
    destruct (write depth (select_command trace) s) as [[n|e] s1] eqn:Hw.
    2:{ unfold _get_data, bind at 1 in Hr. rewrite Hw in Hr.
        inversion Hr; subst.
        apply (proj2 (status_and_write_raise depth)) in Hw.
        now apply raised_by_write_not_format_error in Hw. }
    destruct (query data_query s1) as [[v|e] s2] eqn:Hq.
    2:{ unfold _get_data, bind at 1 in Hr. rewrite Hw in Hr.
        unfold bind at 1 in Hr. rewrite Hq in Hr. inversion Hr; subst.
        rewrite query_eq in Hq.
        apply connection_query_raises in Hq as [code Hq]. discriminate Hq. }
    rewrite (get_data_eq _ _ _ _ _ _ _ _ Hw Hq) in Hr.
    destruct (np_fromstring v) as [val|]; [|discriminate Hr].
    unfold np_reshape in Hr.
    destruct (Nat.even (length val)); [|discriminate Hr].
    destruct (np_transpose (rows val)) as [real imag].
    apply valid_format_cases in Hin as [E1|[[E1 E2]|(E1 & E2 & E3)]];
      rewrite ?E1, ?E2, ?E3 in Hr; discriminate Hr.
Qed.

(** C10.  A payload of 2N values reshapes into N (real, imaginary)
    pairs; on a payload with an odd number of values [_get_data] fails in
    the reshape, whatever the format, and returns nothing. *)
Theorem get_data_needs_even_count :
  (forall (val : list float) N,
      length val = 2 * N ->
      exists a,
        np_reshape val = Ok a /\ length a = N
        /\ flat_map (fun p => [fst p; snd p]) a = val)
  /\ (forall depth trace fmt (s s1 s2 : VNA connection) n v
             (val : list float) N,
        write depth (select_command trace) s = (Ok n, s1) ->
        query data_query s1 = (Ok v, s2) ->
        np_fromstring v = Some val ->
        length val = 2 * N + 1 ->
        _get_data depth trace fmt s
        = (Raise (ValueError (reshape_error (length val))), s2)).
Proof.
  split.
  - intros val N Hlen. exists (rows val).
    repeat split; eauto using np_reshape_even, rows_length, rows_flatten.
  - intros depth trace fmt s s1 s2 n v val N Hw Hq Hv Hlen.
    rewrite (get_data_eq _ _ _ _ _ _ _ _ Hw Hq), Hv.
    rewrite (np_reshape_odd N _ Hlen). reflexivity.
Qed.

(** The entries computed for the db-phase and amp-phase formats, as
    expressions in the float64 operations of NumPy. *)
Lemma get_data_db_phase depth trace
    (s s1 s2 : VNA connection) n v (real imag : list float) :
  write depth (select_command trace) s = (Ok n, s1) ->
  query data_query s1 = (Ok v, s2) ->
  length real = length imag ->
  np_fromstring v = Some (interleaved real imag) ->
  _get_data depth trace "db-phase" s =
  (Ok (map (fun x => fmul (float_of_Z 20) (np_log10 x))
           (np_abs (complex_array real imag)),
       np_angle (complex_array real imag)), s2).
Proof.
  intros Hw Hq Hlen Hv.
  rewrite (get_data_eq _ _ _ _ _ _ _ _ Hw Hq), Hv.
  rewrite (np_reshape_even (length real) _ (interleaved_length _ _ Hlen)).
  rewrite (rows_interleaved _ _ Hlen). reflexivity.
Qed.

Lemma get_data_amp_phase depth trace
    (s s1 s2 : VNA connection) n v (real imag : list float) :
  write depth (select_command trace) s = (Ok n, s1) ->
  query data_query s1 = (Ok v, s2) ->
  length real = length imag ->
  np_fromstring v = Some (interleaved real imag) ->
  _get_data depth trace "amp-phase" s =
  (Ok (map (fun x => fmul x x) (np_abs (complex_array real imag)),
       np_angle (complex_array real imag)), s2).
Proof.
  intros Hw Hq Hlen Hv.
  rewrite (get_data_eq _ _ _ _ _ _ _ _ Hw Hq), Hv.
  rewrite (np_reshape_even (length real) _ (interleaved_length _ _ Hlen)).
  rewrite (rows_interleaved _ _ Hlen). reflexivity.
Qed.

(** The loop of [get_traces] keeps the order of the names. *)
Lemma get_traces_loop_cons depth trace traces fmt temp (s : VNA connection) :
  get_traces_loop (float := float) depth (trace :: traces) fmt temp s =
  match _get_data depth trace fmt s with
  | (Ok r, s') => get_traces_loop depth traces fmt (temp ++ [r]) s'
  | (Raise e, s') => (Raise e, s')
  end.
Proof. reflexivity. Qed.

Lemma get_traces_one_name depth trace fmt (s : VNA connection) :
  get_traces (float := float) depth [trace] fmt s =
  match _get_data depth trace fmt s with
  | (Ok r, s') => (Ok [r], s')
  | (Raise e, s') => (Raise e, s')
  end.
Proof.
  unfold get_traces, validate_Tuple_str, bind at 1, ret at 1.
  rewrite get_traces_loop_cons.
  destruct (_get_data depth trace fmt s) as [[r|e] s']; reflexivity.
Qed.

Lemma get_traces_other_lengths depth traces fmt (s : VNA connection) :
  length traces <> 1 ->
  get_traces (float := float) depth traces fmt s = (Raise ValidationError, s).
Proof.
  destruct traces as [|t [|t' traces]]; cbn; intros N;
    try reflexivity. now contradiction N.
Qed.

(** C2.  The call [get_traces(("Trc1", "Trc2"), "db-phase")] is refused by
    the argument validation: it raises before any trace is fetched and
    leaves the session as it was. *)
Theorem get_traces_two_names_rejected depth (s : VNA connection) :
  get_traces (float := float) depth ["Trc1"; "Trc2"] "db-phase" s
  = (Raise ValidationError, s).
Proof. reflexivity. Qed.

End TraceClaims.

(** ** Runs on the scripted instrument *)

(** The status byte reads zero after [*RST]; and it reads 32 once, with
    one error queued, and zero after [*CLS]. *)
Lemma write_checks_status_witness :
  write 2 "*RST" (Scripted.connect ["0"])
  = (Ok 5, mkVNA [] [Wrote "*RST"; Queried "*STB?"]
             [(DEBUG, "[write]: *RST")])
  /\ write 2 "*RST" (Scripted.connect ["32"; "-113,Undefined header"; "0"])
     = (Raise (RuntimeError "command failed: *RST"),
        mkVNA []
          [Wrote "*RST"; Queried "*STB?"; Queried "SYSTem:ERRor:NEXT?";
           Wrote "*CLS"; Queried "*STB?"]
          [(DEBUG, "[write]: *RST");
           (ERROR, "command failure: -113,Undefined header");
           (DEBUG, "[write]: *CLS")]).
Proof.
  split.
  - edestruct (write_checks_status (connection := list string) 0 "*RST"
                 (Scripted.connect ["0"])) as [Hzero _];
      [reflexivity | reflexivity | reflexivity |].
    apply Hzero. reflexivity.
  - edestruct (write_checks_status (connection := list string) 0 "*RST"
                 (Scripted.connect ["32"; "-113,Undefined header"; "0"]))
      as [_ Hnonzero]; [reflexivity | reflexivity | reflexivity |].
    eapply Hnonzero; [discriminate | reflexivity..].
Defined.

Lemma get_error_status_reports_witness :
  get_error_status 2 (Scripted.connect ["0"])
  = (Ok false, mkVNA [] [Queried "*STB?"] [])
  /\ get_error_status 2
       (Scripted.connect ["32"; "-113,Undefined header"; "0"])
     = (Ok true,
        mkVNA []
          [Queried "*STB?"; Queried "SYSTem:ERRor:NEXT?";
           Wrote "*CLS"; Queried "*STB?"]
          [(ERROR, "command failure: -113,Undefined header");
           (DEBUG, "[write]: *CLS")]).
Proof.
  split.
  - edestruct (get_error_status_reports (connection := list string) 0
                 (Scripted.connect ["0"])) as [Hzero _];
      [reflexivity | reflexivity |].
    apply Hzero. reflexivity.
  - edestruct (get_error_status_reports (connection := list string) 0
                 (Scripted.connect ["32"; "-113,Undefined header"; "0"]))
      as [_ Hnonzero]; [reflexivity | reflexivity |].
    destruct Hnonzero as [Hok _]; [discriminate|].
    eapply Hok; reflexivity.
Defined.

(** C3, counterexample.  The status byte still reads nonzero after the
    first [*CLS]: [write] raises the command error of the nested [*CLS],
    not one naming [*RST], and [*CLS] has been sent twice. *)
Lemma write_persistent_status :
  let r := write 3 "*RST" (Scripted.connect ["4"; "-113"; "4"; "-109"; "0"]) in
  py_int "4" = Some 4%Z
  /\ fst r = Raise (RuntimeError "command failed: *CLS")
  /\ fst r <> Raise (RuntimeError "command failed: *RST")
  /\ sent "*CLS" (history (snd r)) = 2.
Proof.
  vm_compute. repeat split. discriminate.
Qed.

(** C4, counterexample.  The status byte reads nonzero and still does
    after [*CLS]: the check does not report [true], it raises. *)
Lemma get_error_status_persistent_status :
  let r := get_error_status 3
             (Scripted.connect ["4"; "-113"; "4"; "-109"; "0"]) in
  py_int "4" = Some 4%Z
  /\ fst r = Raise (RuntimeError "command failed: *CLS")
  /\ fst r <> Ok true.
Proof.
  vm_compute. repeat split. discriminate.
Qed.

(** C1, counterexample.  With the format [bogus] the invalid-argument
    error is raised after three calls on the session. *)
Lemma get_data_bogus_after_io :
  let s := Scripted.connect ["0"; "1,0,0,1"] in
  let r := _get_data 2 "Trc1" "bogus" s in
  ~ In "bogus" valid_formats
  /\ fst r = Raise (ValueError data_format_error)
  /\ history (snd r)
     = [Wrote (select_command "Trc1"); Queried "*STB?"; Queried data_query]
  /\ history (snd r) <> history s.
Proof.
  cbv zeta. split.
  - cbn. intros [E|[E|[E|[]]]]; discriminate E.
  - vm_compute. repeat split. discriminate.
Qed.

Lemma get_data_unrecognized_format_witness :
  _get_data 2 "Trc1" "bogus" (Scripted.connect ["0"; "1,0,0,1"])
  = (Raise (ValueError data_format_error),
     mkVNA []
       [Wrote (select_command "Trc1"); Queried "*STB?"; Queried data_query]
       [(DEBUG, "[write]: " ++ select_command "Trc1");
        (DEBUG, "[query]: " ++ data_query)]%string).
Proof.
  eapply (get_data_unrecognized_format (connection := list string)
            (float := Scripted.sym) 2 "Trc1" "bogus"
            (Scripted.connect ["0"; "1,0,0,1"]) _ _ _ "1,0,0,1" _ 2).
  - cbn. intros [E|[E|[E|[]]]]; discriminate E.
  - reflexivity.
  - reflexivity.
  - reflexivity.
  - reflexivity.
Defined.

Lemma get_data_two_sequences_witness :
  exists first second : list Scripted.sym,
    _get_data 2 "Trc1" "db-phase" (Scripted.connect ["0"; "1,0,0,1"])
    = (Ok (first, second),
       mkVNA []
         [Wrote (select_command "Trc1"); Queried "*STB?"; Queried data_query]
         [(DEBUG, "[write]: " ++ select_command "Trc1");
          (DEBUG, "[query]: " ++ data_query)]%string)
    /\ length first = 2 /\ length second = 2.
Proof.
  eapply (get_data_two_sequences (connection := list string)
            (float := Scripted.sym) 2 "Trc1" "db-phase"
            (Scripted.connect ["0"; "1,0,0,1"]) _ _ _ "1,0,0,1" _ 2).
  - cbn. auto.
  - reflexivity.
  - reflexivity.
  - reflexivity.
  - reflexivity.
Defined.

Lemma get_data_real_imag_passthrough_witness :
  _get_data 2 "Trc1" "Real-Imag" (Scripted.connect ["0"; "1,0,0,1"])
  = (Ok ([Scripted.Lit 1; Scripted.Lit 0], [Scripted.Lit 0; Scripted.Lit 1]),
     mkVNA []
       [Wrote (select_command "Trc1"); Queried "*STB?"; Queried data_query]
       [(DEBUG, "[write]: " ++ select_command "Trc1");
        (DEBUG, "[query]: " ++ data_query)]%string).
Proof.
  eapply (get_data_real_imag_passthrough (connection := list string)
            (float := Scripted.sym) 2 "Trc1" "Real-Imag"
            (Scripted.connect ["0"; "1,0,0,1"]) _ _ _ "1,0,0,1").
  - reflexivity.
  - reflexivity.
  - reflexivity.
  - reflexivity.
  - reflexivity.
Defined.

Lemma data_format_case_insensitive_witness :
  _get_data (float := Scripted.sym) 2 "Trc1" "DB-PHASE"
    (Scripted.connect ["0"; "1,0,0,1"])
  = _get_data 2 "Trc1" "db-phase" (Scripted.connect ["0"; "1,0,0,1"])
  /\ ~ In (lower "Bogus") valid_formats.
Proof.
  split.
  - apply (proj1 (data_format_case_insensitive (connection := list string)
                    (float := Scripted.sym) 2 "Trc1" "DB-PHASE"
                    (Scripted.connect ["0"; "1,0,0,1"])) "db-phase").
    + cbn. auto.
    + reflexivity.
  - eapply (proj2 (data_format_case_insensitive (connection := list string)
                     (float := Scripted.sym) 2 "Trc1" "Bogus"
                     (Scripted.connect ["0"; "1,0,0,1"]))).
    reflexivity.
Defined.

Lemma get_data_needs_even_count_witness :
  (exists a,
      np_reshape [Scripted.Lit 1; Scripted.Lit 0; Scripted.Lit 0; Scripted.Lit 1]
      = Ok a /\ length a = 2
      /\ flat_map (fun p => [fst p; snd p]) a
         = [Scripted.Lit 1; Scripted.Lit 0; Scripted.Lit 0; Scripted.Lit 1])
  /\ _get_data 2 "Trc1" "db-phase" (Scripted.connect ["0"; "1,0,0"])
     = (Raise (ValueError "cannot reshape array of size 3 into shape (2)"),
        mkVNA []
          [Wrote (select_command "Trc1"); Queried "*STB?"; Queried data_query]
          [(DEBUG, "[write]: " ++ select_command "Trc1");
           (DEBUG, "[query]: " ++ data_query)]%string).
Proof.
  split.
  - apply (proj1 (get_data_needs_even_count (connection := list string)
                    (float := Scripted.sym))).
    reflexivity.
  - eapply (proj2 (get_data_needs_even_count (connection := list string)
                     (float := Scripted.sym))
              2 "Trc1" "db-phase" (Scripted.connect ["0"; "1,0,0"])
              _ _ _ "1,0,0"
              [Scripted.Lit 1; Scripted.Lit 0; Scripted.Lit 0] 1).
    + reflexivity.
    + reflexivity.
    + reflexivity.
    + reflexivity.
Defined.

(** ** What [write] and the status check do in every case *)

Section StatusMore.

Context {connection : Type} `{Visa connection}.

Lemma sent_app cmd (h1 h2 : list io_event) :
  sent cmd (h1 ++ h2) = sent cmd h1 + sent cmd h2.
Proof. unfold sent. now rewrite filter_app, length_app. Qed.

Lemma queried_app cmd (h1 h2 : list io_event) :
  queried cmd (h1 ++ h2) = queried cmd h1 + queried cmd h2.
Proof. unfold queried. now rewrite filter_app, length_app. Qed.

(** A status check that reports no error has read a zero status byte and
    has done nothing else. *)
Lemma get_error_status_false depth (s s' : VNA connection) :
  get_error_status depth s = (Ok false, s') ->
  exists stb,
    connection_query "*STB?" s = (Ok stb, s') /\ py_int stb = Some 0%Z.
Proof.
  destruct depth as [|d]; [discriminate|].
  rewrite get_error_status_eq.
  destruct (connection_query "*STB?" s) as [[stb|e] s1]; [|discriminate].
  destruct (py_int stb) as [status|] eqn:Ep; [|discriminate].
  destruct (status =? 0)%Z eqn:Ez.
  - intros E. inversion E; subst. apply Z.eqb_eq in Ez. subst. eauto.
  - destruct (connection_query "SYSTem:ERRor:NEXT?" s1) as [[msg|e] s2].
    + destruct (write d "*CLS" _) as [[n|e] s3]; discriminate.
    + destruct (write d "*CLS" s2) as [[n|e'] s3]; discriminate.
Qed.

(** A [write] that returns has sent the command and read a zero status
    byte. *)
Lemma write_ok_inv depth cmd (s s' : VNA connection) n :
  write depth cmd s = (Ok n, s') ->
  exists s1 stb,
    connection_write cmd (logged DEBUG ("[write]: " ++ cmd) s) = (Ok n, s1)
    /\ connection_query "*STB?" s1 = (Ok stb, s')
    /\ py_int stb = Some 0%Z.
Proof.
  unfold write. rewrite write_with_eq.
  destruct (connection_write cmd _) as [[n0|e] s1]; [|discriminate].
  destruct (get_error_status depth s1) as [[[|]|e] s2] eqn:Es;
    try discriminate.
  intros E. inversion E; subst.
  apply get_error_status_false in Es as [stb [Hq Hz]]. eauto.
Qed.

Lemma write_ok_calls depth cmd (s s' : VNA connection) n :
  write depth cmd s = (Ok n, s') ->
  history s' = history s ++ [Wrote cmd; Queried "*STB?"]
  /\ records s' = records s ++ [(DEBUG, ("[write]: " ++ cmd)%string)].
Proof.
  intros E. apply write_ok_inv in E as (s1 & stb & Hw & Hq & _).
  apply connection_write_history in Hw as [Hh1 Hr1].
  apply connection_query_history in Hq as [Hh2 Hr2].
  cbn in Hh1, Hr1. split.
  - rewrite Hh2, Hh1, <- app_assoc. reflexivity.
  - rewrite Hr2, Hr1. reflexivity.
Qed.

(** X1.  When [write] returns normally, the status byte was read once and
    read zero, exactly two calls were made on the session, the command
    and that [*STB?] query, and the logger took exactly the debug record
    of the command. *)
Theorem write_returns_after_two_calls depth cmd (s s' : VNA connection) n :
  write depth cmd s = (Ok n, s') ->
  history s' = history s ++ [Wrote cmd; Queried "*STB?"]
  /\ records s' = records s ++ [(DEBUG, ("[write]: " ++ cmd)%string)]
  /\ exists s1 stb,
      connection_query "*STB?" s1 = (Ok stb, s') /\ py_int stb = Some 0%Z.
Proof.
  intros E. destruct (write_ok_calls _ _ _ _ _ E) as [Hh Hr].
  apply write_ok_inv in E as (s1 & stb & _ & Hq & Hz). eauto 6.
Qed.

(** X2.  Once the status byte has read nonzero after a command, [write]
    raises, whatever the instrument answers afterwards and whatever the
    recursion budget. *)
Theorem write_raises_on_nonzero_status depth cmd (s s1 s2 : VNA connection)
    n stb status :
  connection_write cmd (logged DEBUG ("[write]: " ++ cmd) s) = (Ok n, s1) ->
  connection_query "*STB?" s1 = (Ok stb, s2) ->
  py_int stb = Some status ->
  status <> 0%Z ->
  exists e s', write depth cmd s = (Raise e, s').
Proof.
  intros Hw Hq Hstb Hnz. apply Z.eqb_neq in Hnz.
  unfold write. rewrite write_with_eq, Hw.
  destruct depth as [|d]; [cbn; eauto|].
  rewrite get_error_status_eq, Hq, Hstb, Hnz.
  destruct (connection_query "SYSTem:ERRor:NEXT?" s2) as [[msg|e] s3].
  - destruct (write d "*CLS" _) as [[n'|e] s4]; eauto.
  - destruct (write d "*CLS" s3) as [[n'|e'] s4]; eauto.
Qed.

(** X3.  When the reply to [*STB?] is not an integer literal, [write]
    raises the [ValueError] of [int], not a command error, and neither
    the error queue is read nor [*CLS] sent. *)
Theorem write_non_numeric_status depth cmd (s s1 s2 : VNA connection) n stb :
  connection_write cmd (logged DEBUG ("[write]: " ++ cmd) s) = (Ok n, s1) ->
  connection_query "*STB?" s1 = (Ok stb, s2) ->
  py_int stb = None ->
  write (S depth) cmd s = (Raise (ValueError (int_error stb)), s2)
  /\ history s2 = history s ++ [Wrote cmd; Queried "*STB?"].
Proof.
  intros Hw Hq Hstb. unfold write.
  rewrite write_with_eq, Hw, get_error_status_eq, Hq, Hstb.
  split; [reflexivity|].
  apply connection_write_history in Hw as [Hh1 _].
  apply connection_query_history in Hq as [Hh2 _].
  cbn in Hh1. rewrite Hh2, Hh1, <- app_assoc. reflexivity.
Qed.

(** X4.  When the session fails to send the command, [write] raises that
    session error and the status byte is not read. *)
Theorem write_transport_failure depth cmd (s s1 : VNA connection) e :
  connection_write cmd (logged DEBUG ("[write]: " ++ cmd) s) = (Raise e, s1) ->
  write depth cmd s = (Raise e, s1)
  /\ history s1 = history s ++ [Wrote cmd]
  /\ exists code, e = VisaIOError code.
Proof.
  intros Hw. unfold write. rewrite write_with_eq, Hw.
  split; [reflexivity|]. split.
  - apply connection_write_history in Hw as [Hh _]. exact Hh.
  - eapply connection_write_raises, Hw.
Qed.

End StatusMore.

Section StatusInvariants.

Context {connection : Type} `{Visa connection}.

Lemma connection_query_ok cmd (s : VNA connection) reply c :
  visa_query cmd (conn s) = (inr reply, c) ->
  connection_query cmd s
  = (Ok reply, mkVNA c (history s ++ [Queried cmd]) (records s)).
Proof. unfold connection_query. now intros ->. Qed.

Lemma connection_write_ok cmd (s : VNA connection) n c :
  visa_write cmd (conn s) = (inr n, c) ->
  connection_write cmd s
  = (Ok n, mkVNA c (history s ++ [Wrote cmd]) (records s)).
Proof. unfold connection_write. now intros ->. Qed.

(** X5.  On an instrument whose status byte never reads zero (and which
    answers the error query and accepts [*CLS]), the status check cannot
    return: for every recursion budget it ends in [RecursionError], having
    sent [*CLS] once per level of the budget. *)
Theorem status_never_clears :
  (forall c, exists stb c' status,
      visa_query "*STB?" c = (inr stb, c')
      /\ py_int stb = Some status /\ status <> 0%Z) ->
  (forall c, exists msg c',
      visa_query "SYSTem:ERRor:NEXT?" c = (inr msg, c')) ->
  (forall c, exists n c', visa_write "*CLS" c = (inr n, c')) ->
  forall depth (s : VNA connection),
  exists s',
    get_error_status depth s = (Raise RecursionError, s')
    /\ sent "*CLS" (history s') = sent "*CLS" (history s) + depth.
Proof.
  intros Hstb Herr Hcls. induction depth as [|d IH]; intros s.
  - exists s. split; [reflexivity|lia].
  - destruct (Hstb (conn s)) as (stb & c1 & status & Hq & Hp & Hnz).
    apply Z.eqb_neq in Hnz.
    rewrite get_error_status_eq, (connection_query_ok _ _ _ _ Hq), Hp, Hnz.
    destruct (Herr c1) as (msg & c2 & He).
    rewrite (connection_query_ok _ (mkVNA c1 _ _) _ _ He).
    unfold write. rewrite write_with_eq.
    destruct (Hcls c2) as (n & c3 & Hw).
    rewrite (connection_write_ok _ (logged _ _ (logged _ _ (mkVNA c2 _ _))) _ _ Hw).
    match goal with
    | |- context [get_error_status d ?t] => destruct (IH t) as (s' & E & Hs)
    end.
    rewrite E. exists s'. split; [reflexivity|].
    rewrite Hs. cbn [history logged]. rewrite !sent_app. cbn. lia.
Qed.

(** The exceptions of the status check and of [write], with the text of
    the command errors. *)
Lemma status_and_write_raise_text depth :
  (forall (s s' : VNA connection) e,
      get_error_status depth s = (Raise e, s') ->
      e = RuntimeError "command failed: *CLS"
      \/ e = RecursionError
      \/ (exists code, e = VisaIOError code)
      \/ (exists reply, e = ValueError (int_error reply)))
  /\ (forall cmd (s s' : VNA connection) e,
      write depth cmd s = (Raise e, s') ->
      e = RuntimeError ("command failed: " ++ cmd)
      \/ e = RuntimeError "command failed: *CLS"
      \/ e = RecursionError
      \/ (exists code, e = VisaIOError code)
      \/ (exists reply, e = ValueError (int_error reply))).
Proof.
  assert (step : forall d,
    (forall (s s' : VNA connection) e,
        get_error_status d s = (Raise e, s') ->
        e = RuntimeError "command failed: *CLS"
        \/ e = RecursionError
        \/ (exists code, e = VisaIOError code)
        \/ (exists reply, e = ValueError (int_error reply))) ->
    forall cmd (s s' : VNA connection) e,
      write d cmd s = (Raise e, s') ->
      e = RuntimeError ("command failed: " ++ cmd)
      \/ e = RuntimeError "command failed: *CLS"
      \/ e = RecursionError
      \/ (exists code, e = VisaIOError code)
      \/ (exists reply, e = ValueError (int_error reply))).
  { intros d IH cmd s s' e. unfold write. rewrite write_with_eq.
    destruct (connection_write cmd _) as [[n|e0] s1] eqn:Ew.
    - destruct (get_error_status d s1) as [[[|]|e1] s2] eqn:Es;
        intros E; inversion E; subst; auto.
      right. eapply IH, Es.
    - apply connection_write_raises in Ew as [code ->].
      intros E; inversion E; subst. eauto 6. }
  induction depth as [|d [IHs IHw]].
  - assert (base : forall (s s' : VNA connection) e,
        get_error_status 0 s = (Raise e, s') ->
        e = RuntimeError "command failed: *CLS"
        \/ e = RecursionError
        \/ (exists code, e = VisaIOError code)
        \/ (exists reply, e = ValueError (int_error reply))).
    { intros s s' e E. inversion E; subst. auto. }
    split; [exact base|]. apply step. exact base.
  - assert (IHs' : forall (s s' : VNA connection) e,
        get_error_status (S d) s = (Raise e, s') ->
        e = RuntimeError "command failed: *CLS"
        \/ e = RecursionError
        \/ (exists code, e = VisaIOError code)
        \/ (exists reply, e = ValueError (int_error reply))).
    { intros s s' e. rewrite get_error_status_eq.
      destruct (connection_query "*STB?" s) as [[stb|e0] s1] eqn:Eq.
      2:{ apply connection_query_raises in Eq as [code ->].
          intros E; inversion E; subst. eauto 6. }
      destruct (py_int stb) as [status|].
      2:{ intros E; inversion E; subst. eauto 6. }
      destruct (status =? 0)%Z; [discriminate|].
      assert (cls : forall t t' e1,
                 write d "*CLS" t = (Raise e1, t') ->
                 e1 = RuntimeError "command failed: *CLS"
                 \/ e1 = RecursionError
                 \/ (exists code, e1 = VisaIOError code)
                 \/ (exists reply, e1 = ValueError (int_error reply))).
      { intros t t' e1 Ew. apply IHw in Ew as [Ew|Ew]; auto. }
      destruct (connection_query "SYSTem:ERRor:NEXT?" s1) as [[msg|e0] s2] eqn:Ee.
      - destruct (write d "*CLS" _) as [[n|e1] s3] eqn:Ew; [discriminate|].
        intros E; inversion E; subst. eapply cls, Ew.
      - apply connection_query_raises in Ee as [code ->].
        destruct (write d "*CLS" s2) as [[n|e1] s3] eqn:Ew;
          intros E; inversion E; subst; [eauto 6|]. eapply cls, Ew. }
    split; [exact IHs'|]. apply step. exact IHs'.
Qed.

(** X6.  [write] raises nothing but: the command error naming the command
    itself or [*CLS], [RecursionError], an error of the session, and the
    [ValueError] of [int] on a status reply. *)
Theorem write_raises_only depth cmd (s s' : VNA connection) e :
  write depth cmd s = (Raise e, s') ->
  e = RuntimeError ("command failed: " ++ cmd)
  \/ e = RuntimeError "command failed: *CLS"
  \/ e = RecursionError
  \/ (exists code, e = VisaIOError code)
  \/ (exists reply, e = ValueError (int_error reply)).
Proof. apply (proj2 (status_and_write_raise_text depth)). Qed.

(** The calls the status check and [write] make on the session. *)
Lemma status_and_write_traffic depth :
  (forall s : VNA connection,
      exists io,
        history (snd (get_error_status depth s)) = history s ++ io
        /\ forallb status_event io = true)
  /\ (forall cmd (s : VNA connection),
      exists io,
        history (snd (write depth cmd s)) = history s ++ Wrote cmd :: io
        /\ forallb status_event io = true).
Proof.
  assert (step : forall d,
    (forall s : VNA connection,
        exists io,
          history (snd (get_error_status d s)) = history s ++ io
          /\ forallb status_event io = true) ->
    forall cmd (s : VNA connection),
      exists io,
        history (snd (write d cmd s)) = history s ++ Wrote cmd :: io
        /\ forallb status_event io = true).
  { intros d IH cmd s. unfold write. rewrite write_with_eq.
    destruct (connection_write cmd _) as [[n|e] s1] eqn:Ew;
      apply connection_write_history in Ew as [Hh _]; cbn in Hh.
    - destruct (IH s1) as (io & Hio & Hev).
      exists io. split; [|exact Hev].
      destruct (get_error_status d s1) as [[[|]|e] s2]; cbn in Hio |- *;
        rewrite Hio, Hh, <- app_assoc; reflexivity.
    - exists []. split; [exact Hh|reflexivity]. }
  induction depth as [|d [IHs IHw]].
  - assert (base : forall s : VNA connection,
        exists io,
          history (snd (get_error_status 0 s)) = history s ++ io
          /\ forallb status_event io = true).
    { intros s. exists []. cbn. now rewrite app_nil_r. }
    split; [exact base|]. apply step. exact base.
  - assert (IHs' : forall s : VNA connection,
        exists io,
          history (snd (get_error_status (S d) s)) = history s ++ io
          /\ forallb status_event io = true).
    { intros s. rewrite get_error_status_eq.
      destruct (connection_query "*STB?" s) as [[stb|e] s1] eqn:Eq;
        apply connection_query_history in Eq as [Hh _].
      2:{ exists [Queried "*STB?"]. split; [exact Hh|reflexivity]. }
      destruct (py_int stb) as [status|].
      2:{ exists [Queried "*STB?"]. split; [exact Hh|reflexivity]. }
      destruct (status =? 0)%Z.
      { exists [Queried "*STB?"]. split; [exact Hh|reflexivity]. }
      destruct (connection_query "SYSTem:ERRor:NEXT?" s1) as [[msg|e] s2] eqn:Ee;
        apply connection_query_history in Ee as [He _].
      - destruct (IHw "*CLS" (logged ERROR ("command failure: " ++ msg) s2))
          as (io & Hio & Hev).
        exists ([Queried "*STB?"; Queried "SYSTem:ERRor:NEXT?"; Wrote "*CLS"]
                  ++ io).
        split; [|rewrite forallb_app, Hev; reflexivity].
        destruct (write d "*CLS" _) as [[n|e] s3]; cbn in Hio |- *;
          rewrite Hio, He, Hh, <- !app_assoc; reflexivity.
      - destruct (IHw "*CLS" s2) as (io & Hio & Hev).
        exists ([Queried "*STB?"; Queried "SYSTem:ERRor:NEXT?"; Wrote "*CLS"]
                  ++ io).
        split; [|rewrite forallb_app, Hev; reflexivity].
        destruct (write d "*CLS" s2) as [[n|e'] s3]; cbn in Hio |- *;
          rewrite Hio, He, Hh, <- !app_assoc; reflexivity. }
    split; [exact IHs'|]. apply step. exact IHs'.
Qed.

(** X7.  Whatever its outcome, [write] sends the command first, and
    everything it sends after it is status traffic: [*STB?] queries,
    [SYSTem:ERRor:NEXT?] queries and [*CLS]. *)
Theorem write_sends_only_status_traffic depth cmd (s : VNA connection) :
  exists io,
    history (snd (write depth cmd s)) = history s ++ Wrote cmd :: io
    /\ forallb status_event io = true.
Proof. apply (proj2 (status_and_write_traffic depth)). Qed.

(** X8.  [query] makes exactly one call on the session, whatever the
    reply: the status byte is not read after a query.  It fails only with
    an error of the session. *)
Theorem query_makes_one_call cmd (s : VNA connection) :
  history (snd (query cmd s)) = history s ++ [Queried cmd]
  /\ records (snd (query cmd s))
     = records s ++ [(DEBUG, ("[query]: " ++ cmd)%string)]
  /\ (forall e, fst (query cmd s) = Raise e -> exists code, e = VisaIOError code).
Proof.
  rewrite query_eq.
  destruct (connection_query cmd _) as [r s'] eqn:Eq.
  pose proof (connection_query_history _ _ _ _ Eq) as [Hh Hr].
  cbn in Hh, Hr |- *. repeat split; auto.
  intros e ->. eapply connection_query_raises, Eq.
Qed.

(** X9.  When [reset] returns, [*RST] was sent, the status byte was read
    once and read zero, and nothing else was sent. *)
Theorem reset_returns_on_clean_status depth (s s' : VNA connection) u :
  reset depth s = (Ok u, s') ->
  history s' = history s ++ [Wrote "*RST"; Queried "*STB?"]
  /\ exists s1 stb,
      connection_query "*STB?" s1 = (Ok stb, s') /\ py_int stb = Some 0%Z.
Proof.
  unfold reset, bind.
  destruct (write depth "*RST" s) as [[n|e] s1] eqn:Ew; [|discriminate].
  intros E. inversion E; subst.
  split.
  - apply write_ok_calls in Ew as [Hh _]. exact Hh.
  - apply write_ok_inv in Ew as (s1 & stb & _ & Hq & Hz). eauto.
Qed.

End StatusInvariants.

(** ** More on fetching traces *)

Section TraceMore.

Context {connection : Type} `{Visa connection}.
Context {float : Type} `{NumPy float}.

Lemma bind_ok_inv {A B : Type} (m : M connection A) (k : A -> M connection B)
    (s s' : VNA connection) b :
  bind m k s = (Ok b, s') ->
  exists a s1, m s = (Ok a, s1) /\ k a s1 = (Ok b, s').
Proof.
  unfold bind. destruct (m s) as [[a|e] s1]; [eauto|discriminate].
Qed.

Lemma get_data_select_raises depth trace fmt (s s1 : VNA connection) e :
  write depth (select_command trace) s = (Raise e, s1) ->
  _get_data (float := float) depth trace fmt s = (Raise e, s1).
Proof.
  intros Hw. unfold _get_data, bind at 1. rewrite Hw. reflexivity.
Qed.

Lemma get_data_query_raises depth trace fmt (s s1 s2 : VNA connection) n e :
  write depth (select_command trace) s = (Ok n, s1) ->
  query data_query s1 = (Raise e, s2) ->
  _get_data (float := float) depth trace fmt s = (Raise e, s2).
Proof.
  intros Hw Hq. unfold _get_data, bind at 1. rewrite Hw.
  unfold bind at 1. rewrite Hq. reflexivity.
Qed.

Lemma get_data_ok_inv depth trace fmt (s s' : VNA connection)
    (r : list float * list float) :
  _get_data depth trace fmt s = (Ok r, s') ->
  exists n s1 v,
    write depth (select_command trace) s = (Ok n, s1)
    /\ query data_query s1 = (Ok v, s').
Proof.
  intros E.
  destruct (write depth (select_command trace) s) as [[n|e] s1] eqn:Hw.
  2:{ rewrite (get_data_select_raises _ _ _ _ _ _ Hw) in E. discriminate E. }
  destruct (query data_query s1) as [[v|e] s2] eqn:Hq.
  2:{ rewrite (get_data_query_raises _ _ _ _ _ _ _ _ Hw Hq) in E.
      discriminate E. }
  rewrite (get_data_eq _ _ _ _ _ _ _ _ Hw Hq) in E.
  inversion E; subst. eauto.
Qed.

Lemma get_data_ok_calls depth trace fmt (s s' : VNA connection)
    (r : list float * list float) :
  _get_data depth trace fmt s = (Ok r, s') ->
  history s' =
  history s ++ [Wrote (select_command trace); Queried "*STB?";
                Queried data_query].
Proof.
  intros E. apply get_data_ok_inv in E as (n & s1 & v & Hw & Hq).
  apply write_ok_calls in Hw as [Hh _]. apply query_history in Hq.
  rewrite Hq, Hh, <- app_assoc. reflexivity.
Qed.

(** X10.  When [_get_data] returns a result, exactly three calls were
    made on the session: the select command, one [*STB?] query and the
    data query, in this order. *)
Theorem get_data_returns_after_three_calls depth trace fmt
    (s s' : VNA connection) (r : list float * list float) :
  _get_data depth trace fmt s = (Ok r, s') ->
  history s' =
  history s ++ [Wrote (select_command trace); Queried "*STB?";
                Queried data_query].
Proof. apply get_data_ok_calls. Qed.

(** X11.  The data format has no influence on what is sent to the
    instrument or logged: two calls that differ in the format only leave
    the session in the same state. *)
Theorem get_data_traffic_independent_of_format depth trace fmt fmt'
    (s : VNA connection) :
  snd (_get_data (float := float) depth trace fmt s)
  = snd (_get_data (float := float) depth trace fmt' s).
Proof.
  destruct (write depth (select_command trace) s) as [[n|e] s1] eqn:Hw.
  2:{ now rewrite !(get_data_select_raises _ _ _ _ _ _ Hw). }
  destruct (query data_query s1) as [[v|e] s2] eqn:Hq.
  2:{ now rewrite !(get_data_query_raises _ _ _ _ _ _ _ _ Hw Hq). }
  now rewrite !(get_data_eq _ _ _ _ _ _ _ _ Hw Hq).
Qed.

Lemma status_traffic_no_data_query (io : list io_event) :
  forallb status_event io = true -> queried data_query io = 0.
Proof.
  induction io as [|ev io IH]; [reflexivity|].
  cbn [forallb]. intros E. apply andb_prop in E as [Ev Eio].
  unfold queried in *. cbn [filter].
  assert (Hne : io_event_eqb (Queried data_query) ev = false).
  { destruct ev as [c|c]; [reflexivity|].
    unfold status_event in Ev. cbn [io_event_eqb] in Ev |- *.
    rewrite orb_false_r in Ev. apply orb_prop in Ev as [Ev|Ev];
      apply String.eqb_eq in Ev; subst c; reflexivity. }
  rewrite Hne. apply IH, Eio.
Qed.

(** X12.  When selecting the trace fails, [_get_data] raises the error of
    that [write] and the data query is never sent. *)
Theorem get_data_select_failure depth trace fmt (s s1 : VNA connection) e :
  write depth (select_command trace) s = (Raise e, s1) ->
  _get_data (float := float) depth trace fmt s = (Raise e, s1)
  /\ queried data_query (history s1) = queried data_query (history s).
Proof.
  intros Hw. split; [now apply get_data_select_raises|].
  destruct (proj2 (status_and_write_traffic depth) (select_command trace) s)
    as (io & Hio & Hev).
  rewrite Hw in Hio. cbn [snd] in Hio.
  assert (Hw0 : queried data_query (Wrote (select_command trace) :: io)
                = queried data_query io) by reflexivity.
  rewrite Hio, queried_app, Hw0, (status_traffic_no_data_query _ Hev). lia.
Qed.

(** X13.  An empty payload gives two empty sequences, for each of the
    three formats. *)
Theorem get_data_empty_payload depth trace fmt (s s1 s2 : VNA connection) n v :
  In (lower fmt) valid_formats ->
  write depth (select_command trace) s = (Ok n, s1) ->
  query data_query s1 = (Ok v, s2) ->
  np_fromstring v = Some [] ->
  _get_data (float := float) depth trace fmt s = (Ok ([], []), s2).
Proof.
  intros Hfmt Hw Hq Hv.
  rewrite (get_data_eq _ _ _ _ _ _ _ _ Hw Hq), Hv. cbn.
  apply valid_format_cases in Hfmt as [E1|[[E1 E2]|(E1 & E2 & E3)]];
    rewrite ?E1, ?E2, ?E3; reflexivity.
Qed.

(** X14.  [get_traces] accepts exactly the one-element tuples: a tuple of
    any other length is refused before anything is sent or logged, and
    when [get_traces] returns, it was given one name and returns the one
    result of [_get_data] for it. *)
Theorem get_traces_accepts_exactly_one_name depth traces fmt
    (s : VNA connection) :
  (length traces <> 1 ->
   get_traces (float := float) depth traces fmt s = (Raise ValidationError, s))
  /\ (forall out s',
        get_traces (float := float) depth traces fmt s = (Ok out, s') ->
        exists trace r,
          traces = [trace] /\ out = [r]
          /\ _get_data depth trace fmt s = (Ok r, s')).
Proof.
  split.
  - destruct traces as [|t [|t' traces]]; cbn; intros N;
      try reflexivity. now contradiction N.
  - intros out s'. destruct traces as [|t [|t' traces]];
      [intros E; discriminate E | | intros E; discriminate E].
    unfold get_traces, validate_Tuple_str, bind at 1, ret at 1.
    cbn [get_traces_loop]. unfold bind at 1.
    destruct (_get_data depth t fmt s) as [[r|e] s1] eqn:Eg; [|discriminate].
    intros E. inversion E; subst. exists t, r. auto.
Qed.


End TraceMore.

(** ** Construction and the example program *)

Section ConstructionFacts.

Context {connection : Type} `{Visa connection} `{PyVisa connection}.

Lemma set_attribute_state f (s s' : VNA connection) r :
  set_attribute f s = (r, s') ->
  history s' = history s /\ records s' = records s.
Proof.
  unfold set_attribute. destruct (f (conn s)) as [o c].
  intros E. inversion E; subst. auto.
Qed.

(** A handshake that completes has made five calls on the session. *)
Lemma handshake_ok depth config (s s' : VNA connection) u :
  handshake depth config s = (Ok u, s') ->
  history s' =
  history s ++ [Wrote "*CLS"; Queried "*STB?"; Queried "*IDN?";
                Wrote "FORMat:DATA ASCii"; Queried "*STB?"]
  /\ exists idn,
      records s' =
      records s ++ [(DEBUG, "[write]: *CLS"); (DEBUG, "[query]: *IDN?");
                    (DEBUG, "[write]: FORMat:DATA ASCii");
                    (INFO, ("connection established! " ++ strip idn)%string)].
Proof.
  unfold handshake. intros E.
  apply bind_ok_inv in E as (u1 & s1 & E1 & E).
  apply bind_ok_inv in E as (u2 & s2 & E2 & E).
  apply bind_ok_inv in E as (u3 & s3 & E3 & E).
  apply bind_ok_inv in E as (n4 & s4 & E4 & E).
  apply bind_ok_inv in E as (idn & s5 & E5 & E).
  apply bind_ok_inv in E as (n6 & s6 & E6 & E).
  apply set_attribute_state in E1 as [Hh1 Hr1].
  apply set_attribute_state in E2 as [Hh2 Hr2].
  apply set_attribute_state in E3 as [Hh3 Hr3].
  apply write_ok_calls in E4 as [Hh4 Hr4].
  pose proof (Hh5 := query_history _ _ _ _ E5).
  rewrite query_eq in E5. apply connection_query_history in E5 as [_ Hr5].
  apply write_ok_calls in E6 as [Hh6 Hr6].
  unfold logger in E. inversion E; subst s'. cbn [logged history records].
  split.
  - rewrite Hh6, Hh5, Hh4, Hh3, Hh2, Hh1,
      <- !app_assoc. reflexivity.
  - exists idn. cbn [logged records] in Hr5.
    rewrite Hr6, Hr5, Hr4, Hr3, Hr2, Hr1, <- !app_assoc. reflexivity.
Qed.

(** A handshake that completes, step by step. *)
Lemma handshake_inv depth config (s s' : VNA connection) u :
  handshake depth config s = (Ok u, s') ->
  exists s1 s2 s3 n4 s4 idn s5 n6 s6,
    set_attribute (set_timeout (timeout config)) s = (Ok tt, s1)
    /\ set_attribute (set_write_termination (write_termination config)) s1
       = (Ok tt, s2)
    /\ set_attribute (set_read_termination (read_termination config)) s2
       = (Ok tt, s3)
    /\ write depth "*CLS" s3 = (Ok n4, s4)
    /\ query "*IDN?" s4 = (Ok idn, s5)
    /\ write depth "FORMat:DATA ASCii" s5 = (Ok n6, s6)
    /\ s' = logged INFO ("connection established! " ++ strip idn) s6.
Proof.
  unfold handshake. intros E.
  apply bind_ok_inv in E as ([] & s1 & E1 & E).
  apply bind_ok_inv in E as ([] & s2 & E2 & E).
  apply bind_ok_inv in E as ([] & s3 & E3 & E).
  apply bind_ok_inv in E as (n4 & s4 & E4 & E).
  apply bind_ok_inv in E as (idn & s5 & E5 & E).
  apply bind_ok_inv in E as (n6 & s6 & E6 & E).
  unfold logger in E. inversion E; subst s'.
  exists s1, s2, s3, n4, s4, idn, s5, n6, s6. repeat split; assumption.
Qed.

(** A construction that succeeds opened a resource and completed the
    handshake on it. *)
Lemma init_ok_inv depth connection_string config log cfg
    (s : VNA connection) w :
  __init__ depth connection_string config log = (Ok (cfg, s), w) ->
  config = Some cfg
  /\ w = (records s, Some s)
  /\ exists c u,
      open_resource connection_string = Ok c
      /\ handshake depth cfg
           (mkVNA c []
              (log ++ [(INFO,
                        ("connecting to '" ++ connection_string ++ "'")%string)]))
         = (Ok u, s).
Proof.
  unfold __init__.
  destruct (ResourceManager "@py") as [u|e0]; [|discriminate].
  destruct (open_resource connection_string) as [c|e0]; [|discriminate].
  destruct config as [cfg0|]; [|discriminate].
  destruct (handshake depth cfg0 _) as [[u'|e0] s0] eqn:Eh; [|discriminate].
  intros E. inversion E; subst. eauto 6.
Qed.

Lemma init_ok_history depth connection_string config log cfg
    (s : VNA connection) w :
  __init__ depth connection_string config log = (Ok (cfg, s), w) ->
  history s =
  [Wrote "*CLS"; Queried "*STB?"; Queried "*IDN?";
   Wrote "FORMat:DATA ASCii"; Queried "*STB?"].
Proof.
  intros E. apply init_ok_inv in E as (_ & _ & c & u & _ & Eh).
  apply handshake_ok in Eh as [Hh _]. exact Hh.
Qed.

(** X16.  Construction raises nothing but the connection error, unless
    creating the resource manager itself fails: that exception, raised
    before the [try], reaches the caller as it is. *)
Theorem init_wraps_failures depth connection_string config log e w :
  __init__ depth connection_string config log = (Raise e, w) ->
  e = failed_to_connect \/ ResourceManager "@py" = Raise e.
Proof.
  unfold __init__.
  destruct (ResourceManager "@py") as [u|e0].
  2:{ intros E; inversion E; subst. auto. }
  destruct (open_resource connection_string) as [c|e0].
  2:{ intros E; inversion E; subst. auto. }
  destruct config as [cfg|].
  2:{ intros E; inversion E; subst. auto. }
  destruct (handshake depth cfg _) as [[u'|e0] s];
    intros E; inversion E; subst. auto.
Qed.

(** X17.  Construction without a configuration always fails with the
    connection error (the resource manager permitting), though the
    parameter is declared optional.  Nothing beyond the first record is
    logged, and the resource, when it could be opened, is left as it was
    opened: no call was made on it. *)
Theorem init_without_config_fails depth connection_string log u :
  ResourceManager "@py" = Ok u ->
  let log' :=
    log ++ [(INFO, ("connecting to '" ++ connection_string ++ "'")%string)] in
  __init__ depth connection_string None log
  = (Raise failed_to_connect,
     (log',
      match open_resource connection_string with
      | Ok c => Some (mkVNA c [] log')
      | Raise _ => None
      end)).
Proof.
  intros Hrm. unfold __init__. rewrite Hrm.
  destruct (open_resource connection_string); reflexivity.
Qed.

(** X18.  A construction that succeeds was given a configuration and
    keeps it.  On the resource it opened it assigned the three values of
    the configuration, sent [*CLS], queried [*IDN?] and sent the ASCII
    format command, each [write] returning; these are five calls on the
    session, the two status queries included.  The last record logged
    carries the reply to that [*IDN?] query with the white space at its
    ends removed. *)
Theorem init_handshake depth connection_string config log cfg
    (s : VNA connection) w :
  __init__ depth connection_string config log = (Ok (cfg, s), w) ->
  config = Some cfg
  /\ w = (records s, Some s)
  /\ history s =
     [Wrote "*CLS"; Queried "*STB?"; Queried "*IDN?";
      Wrote "FORMat:DATA ASCii"; Queried "*STB?"]
  /\ exists c s1 s2 s3 n4 s4 idn s5 n6 s6,
      open_resource connection_string = Ok c
      /\ set_attribute (set_timeout (timeout cfg))
           (mkVNA c []
              (log ++ [(INFO,
                        ("connecting to '" ++ connection_string ++ "'")%string)]))
         = (Ok tt, s1)
      /\ set_attribute (set_write_termination (write_termination cfg)) s1
         = (Ok tt, s2)
      /\ set_attribute (set_read_termination (read_termination cfg)) s2
         = (Ok tt, s3)
      /\ write depth "*CLS" s3 = (Ok n4, s4)
      /\ query "*IDN?" s4 = (Ok idn, s5)
      /\ write depth "FORMat:DATA ASCii" s5 = (Ok n6, s6)
      /\ s = logged INFO ("connection established! " ++ strip idn) s6
      /\ records s =
         log ++ [(INFO, ("connecting to '" ++ connection_string ++ "'")%string);
                 (DEBUG, "[write]: *CLS"); (DEBUG, "[query]: *IDN?");
                 (DEBUG, "[write]: FORMat:DATA ASCii");
                 (INFO, ("connection established! " ++ strip idn)%string)].
Proof.
  intros E.
  pose proof (init_ok_history _ _ _ _ _ _ _ E) as Hh.
  apply init_ok_inv in E as (Hc & Hw & c & u & Ho & Eh).
  repeat split; auto.
  apply handshake_inv in Eh
    as (s1 & s2 & s3 & n4 & s4 & idn & s5 & n6 & s6
        & E1 & E2 & E3 & E4 & E5 & E6 & Es).
  exists c, s1, s2, s3, n4, s4, idn, s5, n6, s6.
  repeat split; auto.
  apply set_attribute_state in E1 as [_ Hr1].
  apply set_attribute_state in E2 as [_ Hr2].
  apply set_attribute_state in E3 as [_ Hr3].
  apply write_ok_calls in E4 as [_ Hr4].
  rewrite query_eq in E5. apply connection_query_history in E5 as [_ Hr5].
  apply write_ok_calls in E6 as [_ Hr6].
  cbn [logged records] in Hr5, Hr1.
  subst s. cbn [logged records].
  rewrite Hr6, Hr5, Hr4, Hr3, Hr2, Hr1, <- !app_assoc. reflexivity.
Qed.

Context {float : Type} `{NumPy float}.

(** X19.  When [main] returns, the construction at [ZNB_ADDR] with the
    default configuration succeeded, the [*IDN?] query on the constructed
    instance returned, and [_get_data] returned for the trace [Trc1] in
    the db-phase format.  [main] has printed exactly the reply to that
    query and the one-element list of that result, and nine calls were
    made on the session: the five of the construction, the
    identification query, and the three of the trace fetch. *)
Theorem main_returns depth log (vna : VNA connection)
    (out : list (printed float)) :
  main depth log = (Ok vna, out) ->
  exists cfg s0 w idn s1 r,
    __init__ depth ZNB_ADDR (Some default_config) log = (Ok (cfg, s0), w)
    /\ query "*IDN?" s0 = (Ok idn, s1)
    /\ _get_data depth "Trc1" "db-phase" s1 = (Ok r, vna)
    /\ out = [PrintStr idn; PrintTraces [r]]
    /\ history vna =
       [Wrote "*CLS"; Queried "*STB?"; Queried "*IDN?";
        Wrote "FORMat:DATA ASCii"; Queried "*STB?";
        Queried "*IDN?";
        Wrote (select_command "Trc1"); Queried "*STB?"; Queried data_query].
Proof.
  unfold main.
  destruct (__init__ depth ZNB_ADDR (Some default_config) log)
    as [[[cfg s0]|e] w] eqn:Ei; [|discriminate].
  destruct (query "*IDN?" s0) as [[idn|e] s1] eqn:Eq; [|discriminate].
  destruct (get_traces depth ["Trc1"] "db-phase" s1) as [[temp|e] s2] eqn:Eg;
    [|discriminate].
  intros E. inversion E; subst.
  rewrite get_traces_one_name in Eg.
  destruct (_get_data depth "Trc1" "db-phase" s1) as [[r|e] s3] eqn:Ed;
    [|discriminate].
  inversion Eg; subst.
  exists cfg, s0, w, idn, s1, r. repeat split; auto.
  apply init_ok_history in Ei. apply query_history in Eq.
  apply get_data_ok_calls in Ed.
  rewrite Ed, Eq, Ei. reflexivity.
Qed.

End ConstructionFacts.

(** ** Further runs *)

Lemma write_returns_after_two_calls_witness :
  let s := Scripted.connect ["0"] in
  let s' := mkVNA [] [Wrote "*RST"; Queried "*STB?"]
              [(DEBUG, "[write]: *RST")] in
  write 1 "*RST" s = (Ok 5, s')
  /\ history s' = history s ++ [Wrote "*RST"; Queried "*STB?"]
  /\ records s' = records s ++ [(DEBUG, "[write]: *RST")]
  /\ exists s1 stb,
      connection_query "*STB?" s1 = (Ok stb, s') /\ py_int stb = Some 0%Z.
Proof.
  cbv zeta. split; [reflexivity|].
  apply (write_returns_after_two_calls 1 "*RST" (Scripted.connect ["0"]) _ 5).
  reflexivity.
Defined.

Lemma write_raises_on_nonzero_status_witness :
  exists e s', write 2 "*RST" (Scripted.connect ["32"]) = (Raise e, s').
Proof.
  eapply (write_raises_on_nonzero_status 2 "*RST" (Scripted.connect ["32"])).
  - reflexivity.
  - reflexivity.
  - reflexivity.
  - discriminate.
Defined.

Lemma write_non_numeric_status_witness :
  write 1 "*RST" (Scripted.connect ["ready"])
  = (Raise (ValueError (int_error "ready")),
     mkVNA [] [Wrote "*RST"; Queried "*STB?"] [(DEBUG, "[write]: *RST")])
  /\ history (mkVNA (connection := list string) []
                [Wrote "*RST"; Queried "*STB?"] [(DEBUG, "[write]: *RST")])
     = history (Scripted.connect ["ready"]) ++ [Wrote "*RST"; Queried "*STB?"].
Proof.
  eapply (write_non_numeric_status 0 "*RST" (Scripted.connect ["ready"])).
  - reflexivity.
  - reflexivity.
  - reflexivity.
Defined.

Lemma write_transport_failure_witness :
  let s := mkVNA Bench.Closed [] [] in
  let s1 := mkVNA Bench.Closed [Wrote "*RST"] [(DEBUG, "[write]: *RST")] in
  write 3 "*RST" s = (Raise (VisaIOError (-1073807346)), s1)
  /\ history s1 = history s ++ [Wrote "*RST"]
  /\ exists code, VisaIOError (-1073807346) = VisaIOError code.
Proof.
  apply (write_transport_failure 3 "*RST" (mkVNA Bench.Closed [] [])).
  reflexivity.
Defined.

Lemma status_never_clears_witness :
  exists s',
    get_error_status 3 (mkVNA Bench.Stuck [] []) = (Raise RecursionError, s')
    /\ sent "*CLS" (history s') = 0 + 3.
Proof.
  apply (status_never_clears (connection := Bench.stuck)).
  - intros c. exists "4", c, 4%Z. repeat split. discriminate.
  - intros c. exists "4", c. reflexivity.
  - intros c. exists 5, c. reflexivity.
Defined.

Lemma write_raises_only_witness :
  RuntimeError "command failed: *CLS" = RuntimeError "command failed: *RST"
  \/ RuntimeError "command failed: *CLS" = RuntimeError "command failed: *CLS"
  \/ RuntimeError "command failed: *CLS" = RecursionError
  \/ (exists code, RuntimeError "command failed: *CLS" = VisaIOError code)
  \/ (exists reply,
         RuntimeError "command failed: *CLS" = ValueError (int_error reply)).
Proof.
  eapply (write_raises_only 3 "*RST"
            (Scripted.connect ["4"; "-113"; "4"; "-109"; "0"])).
  reflexivity.
Defined.

Lemma reset_returns_on_clean_status_witness :
  let s := Scripted.connect ["0"] in
  let s' := mkVNA [] [Wrote "*RST"; Queried "*STB?"]
              [(DEBUG, "[write]: *RST")] in
  reset 1 s = (Ok tt, s')
  /\ history s' = history s ++ [Wrote "*RST"; Queried "*STB?"]
  /\ exists s1 stb,
      connection_query "*STB?" s1 = (Ok stb, s') /\ py_int stb = Some 0%Z.
Proof.
  cbv zeta. split; [reflexivity|].
  apply (reset_returns_on_clean_status 1 (Scripted.connect ["0"]) _ tt).
  reflexivity.
Defined.

Lemma get_data_returns_after_three_calls_witness :
  let s := Scripted.connect ["0"; "1,0"] in
  let s' := mkVNA []
              [Wrote (select_command "Trc1"); Queried "*STB?";
               Queried data_query]
              [(DEBUG, "[write]: " ++ select_command "Trc1");
               (DEBUG, "[query]: " ++ data_query)]%string in
  _get_data 1 "Trc1" "real-imag" s = (Ok ([Scripted.Lit 1], [Scripted.Lit 0]), s')
  /\ history s' =
     history s ++ [Wrote (select_command "Trc1"); Queried "*STB?";
                   Queried data_query].
Proof.
  cbv zeta. split; [reflexivity|].
  apply (get_data_returns_after_three_calls (float := Scripted.sym)
           1 "Trc1" "real-imag" (Scripted.connect ["0"; "1,0"]) _
           ([Scripted.Lit 1], [Scripted.Lit 0])).
  reflexivity.
Defined.

Lemma get_data_select_failure_witness :
  let s := Scripted.connect [] in
  let s1 := mkVNA [] [Wrote (select_command "Trc1"); Queried "*STB?"]
              [(DEBUG, "[write]: " ++ select_command "Trc1")]%string in
  _get_data (float := Scripted.sym) 1 "Trc1" "db-phase" s
  = (Raise (VisaIOError (-1073807339)), s1)
  /\ queried data_query (history s1) = queried data_query (history s).
Proof.
  apply (get_data_select_failure (float := Scripted.sym)
           1 "Trc1" "db-phase" (Scripted.connect [])).
  reflexivity.
Defined.

Lemma get_data_empty_payload_witness :
  _get_data (float := Scripted.sym) 1 "Trc1" "amp-phase"
    (Scripted.connect ["0"; EmptyString])
  = (Ok ([], []),
     mkVNA []
       [Wrote (select_command "Trc1"); Queried "*STB?"; Queried data_query]
       [(DEBUG, "[write]: " ++ select_command "Trc1");
        (DEBUG, "[query]: " ++ data_query)]%string).
Proof.
  eapply (get_data_empty_payload (float := Scripted.sym)
            1 "Trc1" "amp-phase" (Scripted.connect ["0"; EmptyString])).
  - cbn. auto.
  - reflexivity.
  - reflexivity.
  - reflexivity.
Defined.

Lemma get_traces_accepts_exactly_one_name_witness :
  get_traces (float := Scripted.sym) 1 [] "db-phase" (Scripted.connect ["0"])
  = (Raise ValidationError, Scripted.connect ["0"])
  /\ exists trace r,
      ["Trc1"] = [trace] /\ [([Scripted.Lit 1], [Scripted.Lit 0])] = [r]
      /\ _get_data 1 trace "real-imag" (Scripted.connect ["0"; "1,0"])
         = (Ok r,
            mkVNA []
              [Wrote (select_command "Trc1"); Queried "*STB?";
               Queried data_query]
              [(DEBUG, "[write]: " ++ select_command "Trc1");
               (DEBUG, "[query]: " ++ data_query)]%string).
Proof.
  split.
  - apply (proj1 (get_traces_accepts_exactly_one_name
                    (float := Scripted.sym) 1 [] "db-phase"
                    (Scripted.connect ["0"]))).
    discriminate.
  - apply (proj2 (get_traces_accepts_exactly_one_name
                    (float := Scripted.sym) 1 ["Trc1"] "real-imag"
                    (Scripted.connect ["0"; "1,0"]))).
    reflexivity.
Defined.


Lemma init_wraps_failures_witness :
  RuntimeError "failed to connect" = failed_to_connect
  \/ @ResourceManager _ (Bench.backend ["32"]) "@py"
     = Raise (RuntimeError "failed to connect").
Proof.
  eapply (@init_wraps_failures _ Scripted.session (Bench.backend ["32"])
            2 ZNB_ADDR (Some default_config) []).
  vm_compute. reflexivity.
Defined.

Lemma init_without_config_fails_witness :
  @__init__ _ Scripted.session (Bench.backend ["0"; "ZNB"; "0"])
    2 ZNB_ADDR None []
  = (Raise failed_to_connect,
     ([(INFO, ("connecting to '" ++ ZNB_ADDR ++ "'")%string)],
      Some (mkVNA ["0"; "ZNB"; "0"] []
              [(INFO, ("connecting to '" ++ ZNB_ADDR ++ "'")%string)]))).
Proof.
  apply (@init_without_config_fails _ Scripted.session
           (Bench.backend ["0"; "ZNB"; "0"]) 2 ZNB_ADDR [] tt).
  reflexivity.
Defined.

Lemma init_handshake_witness :
  @__init__ _ Scripted.session (Bench.backend Bench.greeting)
    1 ZNB_ADDR (Some default_config) []
  = (Ok (default_config, Bench.init_session),
     (records Bench.init_session, Some Bench.init_session))
  /\ history Bench.init_session =
     [Wrote "*CLS"; Queried "*STB?"; Queried "*IDN?";
      Wrote "FORMat:DATA ASCii"; Queried "*STB?"].
Proof.
  assert (run : @__init__ _ Scripted.session (Bench.backend Bench.greeting)
                  1 ZNB_ADDR (Some default_config) []
                = (Ok (default_config, Bench.init_session),
                   (records Bench.init_session, Some Bench.init_session)))
    by (vm_compute; reflexivity).
  split; [exact run|].
  exact (proj1 (proj2 (proj2
           (@init_handshake _ Scripted.session (Bench.backend Bench.greeting)
              1 ZNB_ADDR (Some default_config) [] default_config
              Bench.init_session _ run)))).
Defined.

Lemma main_returns_witness :
  @main _ Scripted.session (Bench.backend Bench.healthy)
    Scripted.sym Scripted.numpy 1 []
  = (Ok Bench.main_session, snd Bench.main_run)
  /\ exists cfg s0 w idn s1 r,
      @__init__ _ Scripted.session (Bench.backend Bench.healthy)
        1 ZNB_ADDR (Some default_config) []
      = (Ok (cfg, s0), w)
      /\ query "*IDN?" s0 = (Ok idn, s1)
      /\ _get_data 1 "Trc1" "db-phase" s1 = (Ok r, Bench.main_session)
      /\ snd Bench.main_run = [PrintStr idn; PrintTraces [r]]
      /\ history Bench.main_session =
         [Wrote "*CLS"; Queried "*STB?"; Queried "*IDN?";
          Wrote "FORMat:DATA ASCii"; Queried "*STB?";
          Queried "*IDN?";
          Wrote (select_command "Trc1"); Queried "*STB?"; Queried data_query].
Proof.
  assert (run : @main _ Scripted.session (Bench.backend Bench.healthy)
                  Scripted.sym Scripted.numpy 1 []
                = (Ok Bench.main_session, snd Bench.main_run))
    by (vm_compute; reflexivity).
  split; [exact run|].
  exact (@main_returns _ Scripted.session (Bench.backend Bench.healthy)
           Scripted.sym Scripted.numpy 1 [] Bench.main_session
           (snd Bench.main_run) run).
Defined.
